(** * redditthing: a shallow embedding of the Reddit stock-mention analyzer

    The development follows the Python sources file by file
    ([models.py], [config.py], [stock_analyzer.py], [ticker_extractor.py],
    [reddit_scraper.py], [visualizer.py]) and proves the properties the
    specification states about them.

    Modelling conventions.
    - A Python [str] is the list of its Unicode code points ([list N]);
      [py "..."] writes an ASCII literal.
    - A [datetime.date] is its proleptic-Gregorian ordinal ([Z]), so that
      [d + timedelta(days=n)] is [d + n] and [(d1 - d2).days] is [d1 - d2].
      A [datetime.datetime] is a date together with the microseconds
      elapsed since midnight.
    - Prices and returns are IEEE-754 binary64 numbers (numpy [float64],
      Rocq's primitive [float]): the arithmetic of the sources is carried
      out with the rounding the machine performs.
    - A call that may raise returns a [result]; [try ... except Exception]
      is a match on it.  External collaborators (the market-data provider,
      the forum client, the Unicode tables of the Python runtime) are
      section variables.
    - Diagnostics written with [print] and the pauses of [time.sleep] are
      not modelled. *)

From Stdlib Require Import ZArith Floats.
From stdpp Require Import gmap strings list sorting.

Abbreviation str := (list N).

(** An ASCII literal as a Python string. *)
Definition py (s : string) : str :=
  (λ c, Ascii.N_of_ascii c) <$> String.list_ascii_of_string s.

(** ** Exceptions *)

Inductive exn :=
  | ValueError (msg : str)
  | IndexError
  | ProviderError.

Inductive result (A : Type) :=
  | Ok (a : A)
  | Raise (e : exn).
Arguments Ok {A} a.
Arguments Raise {A} e.

#[global] Instance result_ret : MRet result := λ A a, Ok a.
#[global] Instance result_bind : MBind result := λ A B f m,
  match m with
  | Ok a => f a
  | Raise e => Raise e
  end.

(** ** models.py *)

Module datetime.
Record t := mk { toordinal : Z; microseconds : Z }.
(** [datetime.date()] *)
Definition date (dt : t) : Z := toordinal dt.
End datetime.

Module StockMention.
Record t := mk {
  ticker : str;
  post_id : str;
  post_title : str;
  post_date : datetime.t;
  post_score : Z;
  post_url : str;
  author : str
}.
End StockMention.

Module StockPerformance.
Record t := mk {
  ticker : str;
  post_date : datetime.t;
  price_at_post : float;
  price_1d : option float;
  price_3d : option float;
  price_1w : option float;
  price_2w : option float;
  price_1m : option float;
  return_1d : option float;
  return_3d : option float;
  return_1w : option float;
  return_2w : option float;
  return_1m : option float
}.

(** The dataclass constructor as [calculate_performance] calls it: the ten
    optional fields take their default [None]. *)
Definition new (ticker : str) (post_date : datetime.t) (price_at_post : float) : t :=
  mk ticker post_date price_at_post None None None None None None None None None None.

(** The names of the ten optional attributes. *)
Inductive attr :=
  | a_price_1d | a_price_3d | a_price_1w | a_price_2w | a_price_1m
  | a_return_1d | a_return_3d | a_return_1w | a_return_2w | a_return_1m.

Definition getattr (p : t) (a : attr) : option float :=
  match a with
  | a_price_1d => price_1d p
  | a_price_3d => price_3d p
  | a_price_1w => price_1w p
  | a_price_2w => price_2w p
  | a_price_1m => price_1m p
  | a_return_1d => return_1d p
  | a_return_3d => return_3d p
  | a_return_1w => return_1w p
  | a_return_2w => return_2w p
  | a_return_1m => return_1m p
  end.

Definition setattr (p : t) (a : attr) (v : float) : t :=
  let '(mk tk pd pp p1 p3 pw p2 pm r1 r3 rw r2 rm) := p in
  match a with
  | a_price_1d => mk tk pd pp (Some v) p3 pw p2 pm r1 r3 rw r2 rm
  | a_price_3d => mk tk pd pp p1 (Some v) pw p2 pm r1 r3 rw r2 rm
  | a_price_1w => mk tk pd pp p1 p3 (Some v) p2 pm r1 r3 rw r2 rm
  | a_price_2w => mk tk pd pp p1 p3 pw (Some v) pm r1 r3 rw r2 rm
  | a_price_1m => mk tk pd pp p1 p3 pw p2 (Some v) r1 r3 rw r2 rm
  | a_return_1d => mk tk pd pp p1 p3 pw p2 pm (Some v) r3 rw r2 rm
  | a_return_3d => mk tk pd pp p1 p3 pw p2 pm r1 (Some v) rw r2 rm
  | a_return_1w => mk tk pd pp p1 p3 pw p2 pm r1 r3 (Some v) r2 rm
  | a_return_2w => mk tk pd pp p1 p3 pw p2 pm r1 r3 rw (Some v) rm
  | a_return_1m => mk tk pd pp p1 p3 pw p2 pm r1 r3 rw r2 (Some v)
  end.
End StockPerformance.

(** ** config.py *)

Module Config.
Import StockPerformance.
(** [(days, return_attr, price_attr)] *)
Definition TIME_PERIODS : list (Z * attr * attr) :=
  [ (1, a_return_1d, a_price_1d);
    (3, a_return_3d, a_price_3d);
    (7, a_return_1w, a_price_1w);
    (14, a_return_2w, a_price_2w);
    (30, a_return_1m, a_price_1m) ]%Z.
End Config.

(** ** stock_analyzer.py *)

(** The price history the provider returns, one row per trading day in
    index order: the date of the row's index entry and its [Close]. *)
Abbreviation DataFrame := (list (Z * float)).

(** [min_diff]: an [int], or [float('inf')] before the first candidate. *)
Inductive num :=
  | Int (z : Z)
  | inf.

Definition num_gt (a : num) (z : Z) : bool :=
  match a with
  | Int m => (z <? m)%Z
  | inf => true
  end.

Definition num_le (a : num) (z : Z) : bool :=
  match a with
  | Int m => (m <=? z)%Z
  | inf => false
  end.

Module StockAnalyzer.
Section StockAnalyzer.
Local Open Scope Z_scope.

(** [yf.Ticker(ticker).history(start=..., end=...)] *)
Variable yf_history : str → Z → Z → result DataFrame.

Definition time_periods := Config.TIME_PERIODS.

Definition get_stock_data (ticker : str) (start_date end_date : Z) : option DataFrame :=
  match yf_history ticker start_date end_date with
  | Ok data =>
      match data with
      | [] => None
      | _ => Some data
      end
  | Raise _ => None
  end.

(** [stock_data.index.date] *)
Definition index_date (stock_data : DataFrame) : list Z := stock_data.*1.

(** The anchor search: the first date of the series, in index order, that
    is on or after the post's date. *)
Fixpoint find_post_price_date (available_dates : list Z) (post_date : Z) : option Z :=
  match available_dates with
  | [] => None
  | date :: rest =>
      if bool_decide (post_date ≤ date) then Some date
      else find_post_price_date rest post_date
  end.

(** [stock_data.loc[stock_data.index.date == d, 'Close'].iloc[0]] *)
Definition close_on (stock_data : DataFrame) (d : Z) : result float :=
  match filter (λ row, row.1 = d) stock_data with
  | row :: _ => Ok row.2
  | [] => Raise IndexError
  end.

(** The search for the trading day closest to the target, on or after it. *)
Fixpoint find_closest (available_dates : list Z) (target_date : Z)
    (closest_date : option Z) (min_diff : num) : option Z * num :=
  match available_dates with
  | [] => (closest_date, min_diff)
  | date :: rest =>
      if bool_decide (target_date ≤ date) then
        let diff := date - target_date in
        if num_gt min_diff diff then find_closest rest target_date (Some date) (Int diff)
        else find_closest rest target_date closest_date min_diff
      else find_closest rest target_date closest_date min_diff
  end.

(** [((future_price - price_at_post) / price_at_post) * 100] on numpy
    [float64] scalars: a division by zero gives an infinity or a NaN, it
    does not raise. *)
Definition return_pct (future_price price_at_post : float) : float :=
  ((future_price - price_at_post) / price_at_post * 100)%float.

(** One iteration of the loop over the time periods. *)
Definition period_step (stock_data : DataFrame) (post_date : Z) (price_at_post : float)
    (performance : StockPerformance.t) (period : Z * StockPerformance.attr * StockPerformance.attr)
    : result StockPerformance.t :=
  let '(days, return_attr, price_attr) := period in
  let target_date := post_date + days in
  let '(closest_date, min_diff) :=
    find_closest (index_date stock_data) target_date None inf in
  match closest_date with
  | Some closest =>
      if num_le min_diff 5 then
        future_price ← close_on stock_data closest;
        let performance := StockPerformance.setattr performance return_attr
                             (return_pct future_price price_at_post) in
        Ok (StockPerformance.setattr performance price_attr future_price)
      else Ok performance
  | None => Ok performance
  end.

Fixpoint periods_loop (stock_data : DataFrame) (post_date : Z) (price_at_post : float)
    (periods : list (Z * StockPerformance.attr * StockPerformance.attr))
    (performance : StockPerformance.t) : result StockPerformance.t :=
  match periods with
  | [] => Ok performance
  | period :: rest =>
      performance ← period_step stock_data post_date price_at_post performance period;
      periods_loop stock_data post_date price_at_post rest performance
  end.

(** The body of the [try] block for one mention: [Ok None] is the
    [continue] taken when the series has no date on or after the post. *)
Definition analyze (mention : StockMention.t) (stock_data : DataFrame)
    : result (option StockPerformance.t) :=
  let post_date := datetime.date (StockMention.post_date mention) in
  let available_dates := index_date stock_data in
  match find_post_price_date available_dates post_date with
  | None => Ok None
  | Some post_price_date =>
      price_at_post ← close_on stock_data post_price_date;
      let performance :=
        StockPerformance.new (StockMention.ticker mention)
          (StockMention.post_date mention) price_at_post in
      performance ← periods_loop stock_data post_date price_at_post time_periods performance;
      Ok (Some performance)
  end.

Definition pair_key (mention : StockMention.t) : str * Z :=
  (StockMention.ticker mention, datetime.date (StockMention.post_date mention)).

(** What one mention that passed the duplicate check contributes. *)
Definition process (mention : StockMention.t) : option StockPerformance.t :=
  let start_date := datetime.date (StockMention.post_date mention) - 1 in
  let end_date := datetime.date (StockMention.post_date mention) + 35 in
  match get_stock_data (StockMention.ticker mention) start_date end_date with
  | None => None
  | Some stock_data =>
      match analyze mention stock_data with
      | Ok (Some performance) => Some performance
      | Ok None => None
      | Raise _ => None
      end
  end.

Fixpoint mentions_loop (mentions : list StockMention.t) (processed_pairs : gset (str * Z))
    (performances : list StockPerformance.t) : list StockPerformance.t :=
  match mentions with
  | [] => performances
  | mention :: rest =>
      if bool_decide (pair_key mention ∈ processed_pairs) then
        mentions_loop rest processed_pairs performances
      else
        let processed_pairs := processed_pairs ∪ {[pair_key mention]} in
        match process mention with
        | Some performance => mentions_loop rest processed_pairs (performances ++ [performance])
        | None => mentions_loop rest processed_pairs performances
        end
  end.

Definition calculate_performance (mentions : list StockMention.t) : list StockPerformance.t :=
  mentions_loop mentions ∅ [].

End StockAnalyzer.
End StockAnalyzer.

(** ** Calls to the external collaborators

    The functions of [ticker_extractor.py] and [reddit_scraper.py] are
    modelled with the calls they make: a computation returns the calls
    made, in order, and how it ended. *)

Inductive call :=
  | InfoCall (ticker : str)
  | HistoryCall (ticker period : str)
  | ListingCall (sort_by : str) (limit : Z).

Definition io (A : Type) : Type := list call * result A.

#[global] Instance io_ret : MRet io := λ A a, ([], Ok a).
#[global] Instance io_bind : MBind io := λ A B f m,
  match m with
  | (calls, Ok a) => let '(calls', r) := f a in (calls ++ calls', r)
  | (calls, Raise e) => (calls, Raise e)
  end.

(** [raise e] *)
Definition raise {A : Type} (e : exn) : io A := ([], Raise e).

(** [try: body  except Exception: handler] *)
Definition try_except {A : Type} (body : io A) (handler : io A) : io A :=
  match body with
  | (calls, Ok a) => (calls, Ok a)
  | (calls, Raise _) => let '(calls', r) := handler in (calls ++ calls', r)
  end.

(** An external call: it is recorded, and returns or raises. *)
Definition external {A : Type} (c : call) (response : result A) : io A := ([c], response).

(** ** ticker_extractor.py *)

(** A value of the provider's metadata dictionary. *)
Inductive info_value :=
  | InfoNone
  | InfoStr (s : str)
  | InfoNum (x : float).

Module TickerExtractor.
Section TickerExtractor.

(** The Unicode tables of the Python runtime outside ASCII: the full
    upper-case mapping of [str.upper] and the alphanumeric test behind [\w]. *)
Variable unicode_upper : N → str.
Variable unicode_isalnum : N → bool.

(** [yf.Ticker(ticker).info]: a dictionary, or [None]. *)
Variable yf_info : str → result (option (gmap str info_value)).
(** [yf.Ticker(ticker).history(period=...)] *)
Variable yf_history_period : str → str → result DataFrame.

Definition is_lower_az (c : N) : bool := bool_decide (97 ≤ c ≤ 122)%N.
Definition is_AZ (c : N) : bool := bool_decide (65 ≤ c ≤ 90)%N.
Definition is_digit (c : N) : bool := bool_decide (48 ≤ c ≤ 57)%N.

(** [str.upper] *)
Definition upper_char (c : N) : str :=
  if is_lower_az c then [(c - 32)%N]
  else if bool_decide (c < 128)%N then [c]
  else unicode_upper c.

Definition upper (text : str) : str := text ≫= upper_char.

(** [\w] on a [str] pattern: alphanumeric or underscore. *)
Definition is_word (c : N) : bool :=
  if bool_decide (c < 128)%N then
    is_lower_az c || is_AZ c || is_digit c || bool_decide (c = 95%N)
  else unicode_isalnum c.

(** [\b] after a word character: the end of the text or a non-word
    character follows. *)
Definition at_boundary (rest : str) : bool :=
  match rest with
  | [] => true
  | c :: _ => negb (is_word c)
  end.

(** [([A-Z]{1,n})\b] at the head of [s]: the greedy repetition takes as
    many letters as it can, up to [n], and gives them back one at a time
    until a word boundary follows.  Returns the group and the rest. *)
Fixpoint match_group (n : nat) (s : str) : option (str * str) :=
  match n, s with
  | S n', c :: s' =>
      if is_AZ c then
        match match_group n' s' with
        | Some (group, rest) => Some (c :: group, rest)
        | None => if at_boundary s' then Some ([c], s') else None
        end
      else None
  | _, _ => None
  end.

(** The scan of [findall]: matches are searched from left to right and do
    not overlap; [skip] counts the characters of the last match that are
    still to be passed. *)
Fixpoint scan (skip : nat) (s : str) : list str :=
  match s with
  | [] => []
  | c :: s' =>
      match skip with
      | S skip' => scan skip' s'
      | O =>
          if bool_decide (c = 36%N) then
            match match_group 5 s' with
            | Some (group, _) => group :: scan (length group) s'
            | None => scan 0 s'
            end
          else scan 0 s'
      end
  end.

(** [self.dollar_ticker_pattern.findall(s)], for the pattern
    [\$([A-Z]{1,5})\b]. *)
Definition findall (s : str) : list str := scan 0 s.

Definition required_fields : list str :=
  [py "symbol"; py "longName"; py "regularMarketPrice"].

(** The body of the [try] block of [validate_ticker]. *)
Definition validate_ticker_body (ticker : str) : io bool :=
  info ← external (InfoCall ticker) (yf_info ticker);
  match info with
  | None => mret false
  | Some info =>
      if bool_decide (size info ≤ 1) then mret false
      else
        let has_required := existsb (λ field, bool_decide (is_Some (info !! field)))
                              required_fields in
        hist ← external (HistoryCall ticker (py "5d")) (yf_history_period ticker (py "5d"));
        let has_price_data := negb (bool_decide (hist = [])) in
        mret (has_required && has_price_data)
  end.

Definition validate_ticker (ticker : str) : io bool :=
  try_except (validate_ticker_body ticker) (mret false).

(** The validation loop over the distinct candidates. *)
Fixpoint validate_loop (unique_tickers : list str) (validated_tickers : gset str)
    : io (gset str) :=
  match unique_tickers with
  | [] => mret validated_tickers
  | ticker :: rest =>
      valid ← validate_ticker ticker;
      validate_loop rest
        (if valid : bool then validated_tickers ∪ {[ticker]} else validated_tickers)
  end.

(** A Python [set] iterates in an order the language leaves open; the
    model takes the order of [elements]. *)
Definition extract_tickers_from_text (text : str) : io (list str) :=
  let validated_tickers : gset str := ∅ in
  let dollar_tickers := findall (upper text) in
  match dollar_tickers with
  | [] => mret []
  | _ =>
      let unique_tickers := elements (list_to_set dollar_tickers : gset str) in
      validated_tickers ← validate_loop unique_tickers validated_tickers;
      mret (elements validated_tickers)
  end.

End TickerExtractor.
End TickerExtractor.

(** ** reddit_scraper.py *)

(** A submission as the forum client exposes it. *)
Module Post.
Record t := mk {
  id : str;
  title : str;
  selftext : str;
  created_utc : Z;
  score : Z;
  permalink : str;
  author : option str
}.
End Post.

Module RedditScraper.
Section RedditScraper.
Local Open Scope Z_scope.

Variable unicode_upper : N → str.
Variable unicode_isalnum : N → bool.
Variable yf_info : str → result (option (gmap str info_value)).
Variable yf_history_period : str → str → result DataFrame.

(** The listings of the subreddit: [hot], [new] and [rising] take the
    limit, [top] the limit and the time filter. *)
Variable subreddit_hot : Z → result (list Post.t).
Variable subreddit_new : Z → result (list Post.t).
Variable subreddit_rising : Z → result (list Post.t).
Variable subreddit_top : Z → str → result (list Post.t).

(** The offset of local time to UTC, in seconds, at an instant. *)
Variable utc_offset : Z → Z.

Definition extract_tickers_from_text : str → io (list str) :=
  TickerExtractor.extract_tickers_from_text
    unicode_upper unicode_isalnum yf_info yf_history_period.

(** [datetime.fromtimestamp]: 1970-01-01 has ordinal 719163. *)
Definition fromtimestamp (timestamp : Z) : datetime.t :=
  let local := timestamp + utc_offset timestamp in
  datetime.mk (719163 + local `div` 86400) ((local `mod` 86400) * 1000000).

(** The mentions of one post, one per ticker. *)
Definition post_mentions (post : Post.t) (tickers : list str) : list StockMention.t :=
  let post_date := fromtimestamp (Post.created_utc post) in
  (λ ticker,
     StockMention.mk ticker (Post.id post) (Post.title post) post_date (Post.score post)
       (py "https://reddit.com" ++ Post.permalink post)
       (match Post.author post with
        | Some name => name
        | None => py "deleted"
        end)) <$> tickers.

Fixpoint posts_loop (use_title_only : bool) (posts : list Post.t)
    (mentions : list StockMention.t) : io (list StockMention.t) :=
  match posts with
  | [] => mret mentions
  | post :: rest =>
      let text_to_analyze :=
        if use_title_only then Post.title post
        else Post.title post ++ py " " ++ Post.selftext post in
      tickers ← extract_tickers_from_text text_to_analyze;
      match tickers with
      | [] => posts_loop use_title_only rest mentions
      | _ => posts_loop use_title_only rest (mentions ++ post_mentions post tickers)
      end
  end.

(** [self.reddit.subreddit(...)] builds a handle without a request; the
    listing is modelled as requested when it is chosen and delivered whole. *)
Definition fetch_posts (limit : Z) (use_title_only : bool) (sort_by time_filter : str)
    : io (list StockMention.t) :=
  let mentions : list StockMention.t := [] in
  posts ←
    (if bool_decide (sort_by = py "hot") then
       external (ListingCall sort_by limit) (subreddit_hot limit)
     else if bool_decide (sort_by = py "new") then
       external (ListingCall sort_by limit) (subreddit_new limit)
     else if bool_decide (sort_by = py "rising") then
       external (ListingCall sort_by limit) (subreddit_rising limit)
     else if bool_decide (sort_by = py "top") then
       external (ListingCall sort_by limit) (subreddit_top limit time_filter)
     else raise (ValueError (py "Invalid sort option: " ++ sort_by)));
  posts_loop use_title_only posts mentions.

End RedditScraper.
End RedditScraper.

(** ** visualizer.py *)

(** A row of [stock_performance] as the database returns it; a [NULL] is
    [None]. *)
Module PerformanceRow.
Record t := mk {
  id : Z;
  ticker : str;
  post_date : str;
  price_at_post : option float;
  price_1d : option float;
  price_3d : option float;
  price_1w : option float;
  price_2w : option float;
  price_1m : option float;
  return_1d : option float;
  return_3d : option float;
  return_1w : option float;
  return_2w : option float;
  return_1m : option float
}.
End PerformanceRow.

Module Visualizer.

(** The statistics of one period. *)
Record period_stats := mk_period_stats {
  count : nat;
  mean_return : float;
  median_return : float;
  std_return : float;
  positive_returns : nat;
  negative_returns : nat;
  win_rate : float;
  best_return : float;
  worst_return : float;
  returns_over_10pct : nat;
  returns_over_25pct : nat;
  returns_under_minus10pct : nat
}.

Inductive results :=
  | Error (message : str)
  | Results (total_stocks_analyzed : nat) (time_periods : gmap str period_stats).

Definition is_nan (x : float) : bool := negb (x =? x)%float.

(** [Series.dropna()]: the values that are neither missing nor NaN. *)
Definition dropna (column : list (option float)) : list float :=
  omap (λ value,
          match value with
          | Some x => if is_nan x then None else Some x
          | None => None
          end) column.

Definition float_of_nat (n : nat) : float := PrimFloat.of_uint63 (Uint63.of_Z (Z.of_nat n)).

Definition sum (values : list float) : float :=
  foldl (λ acc x, (acc + x)%float) 0%float values.

(** [Series.mean()] *)
Definition mean (values : list float) : float :=
  (sum values / float_of_nat (length values))%float.

(** The number of values that satisfy a comparison: [(series > 0).sum()]. *)
Definition count_if (test : float → bool) (values : list float) : nat :=
  length (filter (λ x, test x = true) values).

(** The mean of a comparison: [(series > 0).mean()]. *)
Definition mean_if (test : float → bool) (values : list float) : float :=
  (float_of_nat (count_if test values) / float_of_nat (length values))%float.

Fixpoint insert_sorted (x : float) (sorted : list float) : list float :=
  match sorted with
  | [] => [x]
  | y :: rest => if (x <=? y)%float then x :: sorted else y :: insert_sorted x rest
  end.

Definition sort (values : list float) : list float :=
  foldr insert_sorted [] values.

(** [Series.median()]: the middle value, or the mean of the two middle ones. *)
Definition median (values : list float) : float :=
  let sorted := sort values in
  let n := length sorted in
  if Nat.even n then
    ((nth (n / 2 - 1) sorted nan + nth (n / 2) sorted nan) / 2)%float
  else nth (n / 2) sorted nan.

(** [Series.std()]: the sample standard deviation (one degree of freedom
    removed); a single value has none. *)
Definition std (values : list float) : float :=
  let avg := mean values in
  let squares := (λ x, ((avg - x) * (avg - x))%float) <$> values in
  PrimFloat.sqrt (sum squares / float_of_nat (length values - 1))%float.

Definition maximum (values : list float) : float :=
  match values with
  | [] => nan
  | x :: rest => foldl (λ acc y, if (acc <? y)%float then y else acc) x rest
  end.

Definition minimum (values : list float) : float :=
  match values with
  | [] => nan
  | x :: rest => foldl (λ acc y, if (y <? acc)%float then y else acc) x rest
  end.

Definition stats_of (valid_data : list float) : period_stats :=
  {| count := length valid_data;
     mean_return := mean valid_data;
     median_return := median valid_data;
     std_return := std valid_data;
     positive_returns := count_if (λ x, 0 <? x)%float valid_data;
     negative_returns := count_if (λ x, x <? 0)%float valid_data;
     win_rate := (mean_if (λ x, 0 <? x)%float valid_data * 100)%float;
     best_return := maximum valid_data;
     worst_return := minimum valid_data;
     returns_over_10pct := count_if (λ x, 10 <? x)%float valid_data;
     returns_over_25pct := count_if (λ x, 25 <? x)%float valid_data;
     returns_under_minus10pct := count_if (λ x, x <? -10)%float valid_data |}.

(** The periods of the report with the column [return_<period>] of each. *)
Definition periods : list (str * (PerformanceRow.t → option float)) :=
  [ (py "1d", PerformanceRow.return_1d);
    (py "3d", PerformanceRow.return_3d);
    (py "1w", PerformanceRow.return_1w);
    (py "2w", PerformanceRow.return_2w);
    (py "1m", PerformanceRow.return_1m) ].

Fixpoint periods_loop (data : list PerformanceRow.t)
    (periods : list (str * (PerformanceRow.t → option float)))
    (time_periods : gmap str period_stats) : gmap str period_stats :=
  match periods with
  | [] => time_periods
  | (period, return_col) :: rest =>
      let valid_data := dropna (return_col <$> data) in
      if bool_decide (0 < length valid_data)%nat then
        periods_loop data rest (<[period := stats_of valid_data]> time_periods)
      else periods_loop data rest time_periods
  end.

Definition analyze_profitability (data : list PerformanceRow.t) : results :=
  match data with
  | [] => Error (py "No performance data available")
  | _ => Results (length data) (periods_loop data periods ∅)
  end.

End Visualizer.

(** ** database.py *)

(** A row of [stock_mentions]. *)
Module MentionRow.
Record t := mk {
  id : Z;
  ticker : str;
  post_id : str;
  post_title : str;
  post_date : str;
  post_score : Z;
  post_url : str;
  author : str
}.
End MentionRow.

Module Database.

(** A table with an [AUTOINCREMENT] key: its rows in the order of their
    ids, and the largest id given out so far, which no id of the table
    exceeds. *)
Record table (Row : Type) := mk_table {
  rows : list Row;
  sequence : Z
}.
Arguments mk_table {Row} rows sequence.
Arguments rows {Row} t.
Arguments sequence {Row} t.

(** [INSERT OR REPLACE] into a table with a [UNIQUE] constraint: the rows
    that hold the key of the new row are deleted, and the new row is
    inserted under the next id. *)
Definition insert_or_replace {Row Key : Type} `{EqDecision Key} (key : Row → Key)
    (make : Z → Row) (t : table Row) : table Row :=
  let id := (sequence t + 1)%Z in
  let row := make id in
  mk_table (filter (λ r, key r ≠ key row) (rows t) ++ [row]) id.

(** A number bound to a [REAL] column: a NaN is stored as [NULL]. *)
Definition real (x : float) : option float :=
  if (x =? x)%float then Some x else None.

Record t := mk {
  stock_mentions : table MentionRow.t;
  stock_performance : table PerformanceRow.t
}.

(** The two tables as [init_database] creates them in a new file. *)
Definition empty : t := mk (mk_table [] 0) (mk_table [] 0).

(** [UNIQUE(ticker, post_id)] *)
Definition mention_row_key (row : MentionRow.t) : str * str :=
  (MentionRow.ticker row, MentionRow.post_id row).

(** [UNIQUE(ticker, post_date)] *)
Definition performance_row_key (row : PerformanceRow.t) : str * str :=
  (PerformanceRow.ticker row, PerformanceRow.post_date row).

Section Database.

(** [datetime.isoformat()] *)
Variable isoformat : datetime.t → str.

Definition mention_row (mention : StockMention.t) (id : Z) : MentionRow.t :=
  MentionRow.mk id
    (StockMention.ticker mention) (StockMention.post_id mention)
    (StockMention.post_title mention) (isoformat (StockMention.post_date mention))
    (StockMention.post_score mention) (StockMention.post_url mention)
    (StockMention.author mention).

Definition performance_row (perf : StockPerformance.t) (id : Z) : PerformanceRow.t :=
  PerformanceRow.mk id
    (StockPerformance.ticker perf) (isoformat (StockPerformance.post_date perf))
    (real (StockPerformance.price_at_post perf))
    (StockPerformance.price_1d perf ≫= real) (StockPerformance.price_3d perf ≫= real)
    (StockPerformance.price_1w perf ≫= real) (StockPerformance.price_2w perf ≫= real)
    (StockPerformance.price_1m perf ≫= real)
    (StockPerformance.return_1d perf ≫= real) (StockPerformance.return_3d perf ≫= real)
    (StockPerformance.return_1w perf ≫= real) (StockPerformance.return_2w perf ≫= real)
    (StockPerformance.return_1m perf ≫= real).

Definition save_mentions (mentions : list StockMention.t) (db : t) : t :=
  mk (foldl (λ t mention, insert_or_replace mention_row_key (mention_row mention) t)
        (stock_mentions db) mentions)
     (stock_performance db).

Definition save_performances (performances : list StockPerformance.t) (db : t) : t :=
  mk (stock_mentions db)
     (foldl (λ t perf, insert_or_replace performance_row_key (performance_row perf) t)
        (stock_performance db) performances).

End Database.

(** The rows with any return data. *)
Definition get_all_performance_data (db : t) : list PerformanceRow.t :=
  filter (λ row,
            is_Some (PerformanceRow.return_1d row) ∨
            is_Some (PerformanceRow.return_3d row) ∨
            is_Some (PerformanceRow.return_1w row) ∨
            is_Some (PerformanceRow.return_2w row) ∨
            is_Some (PerformanceRow.return_1m row))
    (rows (stock_performance db)).

End Database.

(** ** main.py *)

Module RedditStockAnalyzerApp.
Section RedditStockAnalyzerApp.

Variable unicode_upper : N → str.
Variable unicode_isalnum : N → bool.
Variable yf_info : str → result (option (gmap str info_value)).
Variable yf_history_period : str → str → result DataFrame.
Variable subreddit_hot subreddit_new subreddit_rising : Z → result (list Post.t).
Variable subreddit_top : Z → str → result (list Post.t).
Variable utc_offset : Z → Z.
Variable yf_history : str → Z → Z → result DataFrame.
Variable isoformat : datetime.t → str.

(** [Config.DEFAULT_POST_LIMIT], read from the environment. *)
Variable DEFAULT_POST_LIMIT : Z.

(** The pipeline on the database [db]: the database after the run and the
    report, or [None] where the function returns early.  The diagnostics,
    the printed report and the plot are output only; the price requests of
    [calculate_performance] are not listed among the calls. *)
Definition run_analysis (db : Database.t) (num_posts : option Z) (title_only : bool)
    (sort_by time_filter : str) : io (Database.t * option Visualizer.results) :=
  let num_posts := default DEFAULT_POST_LIMIT num_posts in
  mentions ←
    RedditScraper.fetch_posts unicode_upper unicode_isalnum yf_info yf_history_period
      subreddit_hot subreddit_new subreddit_rising subreddit_top utc_offset
      num_posts title_only sort_by time_filter;
  match mentions with
  | [] => mret (db, None)
  | _ =>
      let performances := StockAnalyzer.calculate_performance yf_history mentions in
      match performances with
      | [] => mret (db, None)
      | _ =>
          let db := Database.save_mentions isoformat mentions db in
          let db := Database.save_performances isoformat performances db in
          let data := Database.get_all_performance_data db in
          let results := Visualizer.analyze_profitability data in
          mret (db, Some results)
      end
  end.

End RedditStockAnalyzerApp.
End RedditStockAnalyzerApp.

(** ** Notions used to state the properties of the database *)

Module DatabaseSpec.
Import Database.

(** [INSERT OR REPLACE] for each item of a list, in order. *)
Definition upsert_all {Row Key Item : Type} `{EqDecision Key} (key : Row → Key)
    (make : Item → Z → Row) (items : list Item) (t : table Row) : table Row :=
  foldl (λ t item, insert_or_replace key (make item) t) t items.

(** The key under which a performance record is stored. *)
Definition stored_key (isoformat : datetime.t → str) (perf : StockPerformance.t)
    : str * str :=
  (StockPerformance.ticker perf, isoformat (StockPerformance.post_date perf)).

(** The key under which a mention is stored. *)
Definition stored_mention_key (mention : StockMention.t) : str * str :=
  (StockMention.ticker mention, StockMention.post_id mention).

End DatabaseSpec.

(** ** Notions used to state the properties of the report *)

Module ReportSpec.

(** The running maximum of [max()] and minimum of [min()]. *)
Definition greater (acc y : float) : float := if (acc <? y)%float then y else acc.
Definition smaller (acc y : float) : float := if (y <? acc)%float then y else acc.

End ReportSpec.

(** ** Notions used to state the properties of prices *)

(** A finite binary64 number other than a zero. *)
Definition is_finite_nonzero (x : float) : bool :=
  match classify x with
  | PNormal | NNormal | PSubn | NSubn => true
  | _ => false
  end.

(** ** Notions used to state the properties of the performance calculator *)

Module PerformanceSpec.
Import StockAnalyzer.
Local Open Scope Z_scope.

#[global] Instance attr_eq_dec : EqDecision StockPerformance.attr.
Proof. solve_decision. Defined.

(** What the search for the closest trading day has established after the
    dates [seen]: nothing on or after the target yet, or the least such
    date together with its distance to the target. *)
Definition closest_of (seen : list Z) (target_date : Z)
    (closest_date : option Z) (min_diff : num) : Prop :=
  match closest_date with
  | None => min_diff = inf ∧ Forall (λ x, x < target_date) seen
  | Some d =>
      min_diff = Int (d - target_date) ∧ d ∈ seen ∧ target_date ≤ d ∧
      Forall (λ x, target_date ≤ x → d ≤ x) seen
  end.

(** The trading day a horizon is matched to: the search of [period_step]
    followed by its acceptance test. *)
Definition horizon_date (available_dates : list Z) (target_date : Z) : option Z :=
  let '(closest_date, min_diff) := find_closest available_dates target_date None inf in
  match closest_date with
  | Some closest => if num_le min_diff 5 then Some closest else None
  | None => None
  end.

(** The close a horizon is matched to. *)
Definition horizon_price (stock_data : DataFrame) (target_date : Z) : option float :=
  closest ← horizon_date (index_date stock_data) target_date;
  match close_on stock_data closest with
  | Ok future_price => Some future_price
  | Raise _ => None
  end.

(** The attributes a list of periods writes. *)
Definition period_attrs (periods : list (Z * StockPerformance.attr * StockPerformance.attr))
    : list StockPerformance.attr :=
  periods ≫= (λ period, [period.1.2; period.2]).

(** The key under which a record is unique: ticker and calendar day. *)
Definition performance_key (p : StockPerformance.t) : str * Z :=
  (StockPerformance.ticker p, datetime.date (StockPerformance.post_date p)).

(** The mentions that pass the duplicate check, in input order. *)
Fixpoint first_occurrences (processed_pairs : gset (str * Z)) (mentions : list StockMention.t)
    : list StockMention.t :=
  match mentions with
  | [] => []
  | mention :: rest =>
      if bool_decide (pair_key mention ∈ processed_pairs) then
        first_occurrences processed_pairs rest
      else mention :: first_occurrences (processed_pairs ∪ {[pair_key mention]}) rest
  end.

(** The series requested for a mention: the window from the day before the
    post to 35 days after it. *)
Definition fetched (yf_history : str → Z → Z → result DataFrame) (mention : StockMention.t)
    : option DataFrame :=
  get_stock_data yf_history (StockMention.ticker mention)
    (datetime.date (StockMention.post_date mention) - 1)
    (datetime.date (StockMention.post_date mention) + 35).

(** What [calculate_performance] records for a mention whose series is
    [stock_data]: the mention's ticker and full timestamp, the close of the
    anchor date, and per period the matched close and the return on it. *)
Definition performance_of (mention : StockMention.t) (stock_data : DataFrame)
    (performance : StockPerformance.t) : Prop :=
  let post_date := datetime.date (StockMention.post_date mention) in
  StockPerformance.ticker performance = StockMention.ticker mention ∧
  StockPerformance.post_date performance = StockMention.post_date mention ∧
  (∃ post_price_date,
     find_post_price_date (index_date stock_data) post_date = Some post_price_date ∧
     close_on stock_data post_price_date = Ok (StockPerformance.price_at_post performance)) ∧
  ∀ days return_attr price_attr, (days, return_attr, price_attr) ∈ time_periods →
    StockPerformance.getattr performance price_attr =
      horizon_price stock_data (post_date + days) ∧
    StockPerformance.getattr performance return_attr =
      (λ future_price, return_pct future_price (StockPerformance.price_at_post performance)) <$>
        horizon_price stock_data (post_date + days).

(** The records of the output that carry a given key. *)
Definition records_for (yf_history : str → Z → Z → result DataFrame) (key : str * Z)
    (mentions : list StockMention.t) : list StockPerformance.t :=
  filter (λ p, performance_key p = key) (calculate_performance yf_history mentions).

End PerformanceSpec.


(** ** Notions used to state the properties of the ticker extractor *)

Module ExtractorSpec.
Import TickerExtractor.

(** The text holds a dollar sign followed by one to five letters A-Z and
    then a word boundary: a [$SYMBOL]-shaped token. *)
Definition has_symbol (unicode_isalnum : N → bool) (s : str) : Prop :=
  ∃ before letters rest,
    s = before ++ 36%N :: letters ++ rest ∧
    (1 ≤ length letters ≤ 5)%nat ∧
    Forall (λ c, is_AZ c = true) letters ∧
    at_boundary unicode_isalnum rest = true.

(** The candidate [group] stands in [s] as a token: after a dollar sign,
    one to five letters A-Z long, and followed by a word boundary. *)
Definition token_in (unicode_isalnum : N → bool) (s group : str) : Prop :=
  ∃ before rest,
    s = before ++ 36%N :: group ++ rest ∧
    (1 ≤ length group ≤ 5)%nat ∧
    Forall (λ c, is_AZ c = true) group ∧
    at_boundary unicode_isalnum rest = true.

(** The verdict of [validate_ticker]. *)
Definition accepted (yf_info : str → result (option (gmap str info_value)))
    (yf_history_period : str → str → result DataFrame) (ticker : str) : bool :=
  match (validate_ticker yf_info yf_history_period ticker).2 with
  | Ok verdict => verdict
  | Raise _ => false
  end.

(** The tickers whose metadata was requested, in the order of the requests. *)
Definition info_calls (calls : list call) : list str :=
  omap (λ c, match c with InfoCall ticker => Some ticker | _ => None end) calls.

End ExtractorSpec.

(** ** Notions used to state the properties of the mention source *)

Module ScraperSpec.
Import RedditScraper.

(** The listing a sort mode stands for, if it is one of the four. *)
Definition listing (subreddit_hot subreddit_new subreddit_rising : Z → result (list Post.t))
    (subreddit_top : Z → str → result (list Post.t))
    (sort_by : str) (limit : Z) (time_filter : str) : option (result (list Post.t)) :=
  if bool_decide (sort_by = py "hot") then Some (subreddit_hot limit)
  else if bool_decide (sort_by = py "new") then Some (subreddit_new limit)
  else if bool_decide (sort_by = py "rising") then Some (subreddit_rising limit)
  else if bool_decide (sort_by = py "top") then Some (subreddit_top limit time_filter)
  else None.

(** The text of a post that is searched for tickers. *)
Definition text_to_analyze (use_title_only : bool) (post : Post.t) : str :=
  if use_title_only then Post.title post
  else Post.title post ++ py " " ++ Post.selftext post.

(** The tickers [extract_tickers_from_text] returns for a text. *)
Definition extracted (unicode_upper : N → str) (unicode_isalnum : N → bool)
    (yf_info : str → result (option (gmap str info_value)))
    (yf_history_period : str → str → result DataFrame) (text : str) : list str :=
  match (extract_tickers_from_text unicode_upper unicode_isalnum yf_info yf_history_period
           text).2 with
  | Ok tickers => tickers
  | Raise _ => []
  end.

(** The key under which a mention is unique: ticker and post. *)
Definition mention_key (mention : StockMention.t) : str * str :=
  (StockMention.ticker mention, StockMention.post_id mention).

End ScraperSpec.

(** ** Concrete scenarios *)

Module Scenario.
Import StockAnalyzer.
Local Open Scope Z_scope.

(** 2024-01-02 as an ordinal. *)
Definition day0 : Z := 738887.

(** A provider serving fixed histories: the rows of the ticker's history
    that fall in the requested window, an error for an unknown ticker. *)
Definition provider (book : list (str * DataFrame)) (ticker : str) (start_date end_date : Z)
    : result DataFrame :=
  match list_find (λ entry, entry.1 = ticker) book with
  | Some (_, (_, history)) =>
      Ok (filter (λ row, start_date ≤ row.1 ∧ row.1 < end_date) history)
  | None => Raise ProviderError
  end.

Definition mention_at (ticker post_id : string) (day microseconds : Z) : StockMention.t :=
  StockMention.mk (py ticker) (py post_id) (py "title") (datetime.mk day microseconds)
    1 (py "https://reddit.com/r/pennystocks") (py "author").

(** Two posts of the same day naming the same ticker. *)
Definition morning : StockMention.t := mention_at "XYZ" "p1" day0 34200000000.
Definition evening : StockMention.t := mention_at "XYZ" "p2" day0 72000000000.

(** A trading calendar with a gap: no trading between the post day and a
    week later. *)
Definition gap_history : DataFrame := [(day0, 10%float); (day0 + 7, 11.5%float)].
Definition gap_provider := provider [(py "XYZ", gap_history)].

Definition gap_record : StockPerformance.t :=
  StockPerformance.mk (py "XYZ") (datetime.mk day0 34200000000) 10
    None (Some 11.5%float) (Some 11.5%float) None None
    None (Some 15%float) (Some 15%float) None None.

(** The end-to-end scenario of the specification: closes of 10.0 on the
    post day, 10.5 the day after, 12.0 a week and 9.0 thirty days later. *)
Definition spec_history : DataFrame :=
  [(day0, 10%float); (day0 + 1, 10.5%float); (day0 + 7, 12%float); (day0 + 30, 9%float)].
Definition spec_provider := provider [(py "XYZ", spec_history)].

Definition spec_record : StockPerformance.t :=
  StockPerformance.mk (py "XYZ") (datetime.mk day0 34200000000) 10
    (Some 10.5%float) (Some 12%float) (Some 12%float) None (Some 9%float)
    (Some 5%float) (Some 20%float) (Some 20%float) None (Some (-10)%float).

(** A history that ends on the post day. *)
Definition short_history : DataFrame := [(day0 - 1, 9.5%float); (day0, 10%float)].
Definition short_provider := provider [(py "XYZ", short_history)].

Definition short_record : StockPerformance.t :=
  StockPerformance.new (py "XYZ") (datetime.mk day0 34200000000) 10.

(** A post on a day without trading: the next two trading days are two and
    three days later. *)
Definition weekend_history : DataFrame := [(day0 + 2, 10%float); (day0 + 3, 10.5%float)].
Definition weekend_provider := provider [(py "XYZ", weekend_history)].

Definition weekend_record : StockPerformance.t :=
  StockPerformance.mk (py "XYZ") (datetime.mk day0 34200000000) 10
    (Some 10%float) (Some 10.5%float) None None None
    (Some 0%float) (Some 5%float) None None None.

(** A mention of another ticker, and a provider that knows both. *)
Definition other : StockMention.t := mention_at "ABC" "p3" day0 36000000000.
Definition two_ticker_provider :=
  provider [(py "XYZ", gap_history); (py "ABC", short_history)].

(** A provider that knows no ticker. *)
Definition no_provider := provider [].

(** Five stored rows whose one-day returns are 5, -5, 15, -15 and 25; the
    other horizons were not resolved. *)
Definition five_rows : list PerformanceRow.t :=
  (λ entry : Z * float,
     PerformanceRow.mk entry.1 (py "XYZ") (py "2024-01-02T09:30:00") (Some 10%float)
       None None None None None (Some entry.2) None None None None)
  <$> [(1%Z, 5%float); (2%Z, (-5)%float); (3%Z, 15%float); (4%Z, (-15)%float);
       (5%Z, 25%float)].

(** Tables that map every character outside ASCII to itself and count none
    of them as alphanumeric. *)
Definition plain_upper (c : N) : str := [c].
Definition plain_isalnum (c : N) : bool := false.

(** A provider whose metadata holds the symbol and nothing else, and whose
    5-day history has one row. *)
Definition symbol_only_info (ticker : str) : result (option (gmap str info_value)) :=
  Ok (Some {[ py "symbol" := InfoStr ticker ]}).
Definition one_row_history (ticker period : str) : result DataFrame :=
  Ok [(day0, 10%float)].

(** A title with dollar signs and no ticker: an amount, a symbol followed by
    a digit, and six letters. *)
Definition plain_title : str := py "up $5 today, $TSLA1 and $abcdef".

(** A provider whose metadata holds the symbol and the name. *)
Definition named_info (ticker : str) : result (option (gmap str info_value)) :=
  Ok (Some (<[ py "symbol" := InfoStr ticker ]> {[ py "longName" := InfoStr ticker ]})).

(** Two posts: one names a ticker in its title and another in its body,
    the other, by a deleted author, names none. *)
Definition post_one : Post.t :=
  Post.mk (py "p1") (py "$xyz to the moon") (py "also watching $ABC")
    1704187800 42 (py "/r/pennystocks/comments/p1") (Some (py "alice")).
Definition post_two : Post.t :=
  Post.mk (py "p2") (py "no ticker today") (py "") 1704190000 7
    (py "/r/pennystocks/comments/p2") None.
Definition hot_posts (limit : Z) : result (list Post.t) := Ok [post_one; post_two].

(** The same posts without their bodies. *)
Definition bare_posts (limit : Z) : result (list Post.t) :=
  Ok [Post.mk (py "p1") (py "$xyz to the moon") (py "")
        1704187800 42 (py "/r/pennystocks/comments/p1") (Some (py "alice"));
      post_two].

(** The mentions of the two posts, title and body analysed. *)
Definition post_one_mention (ticker : string) : StockMention.t :=
  StockMention.mk (py ticker) (py "p1") (py "$xyz to the moon")
    (datetime.mk day0 34200000000) 42
    (py "https://reddit.com/r/pennystocks/comments/p1") (py "alice").
Definition hot_mentions : list StockMention.t :=
  [post_one_mention "XYZ"; post_one_mention "ABC"].

(** An injective stand-in for [isoformat]: sign and magnitude of the
    ordinal and of the microseconds. *)
Definition stamp (dt : datetime.t) : str :=
  [ if bool_decide (datetime.toordinal dt < 0) then 45%N else 43%N;
    Z.abs_N (datetime.toordinal dt);
    if bool_decide (datetime.microseconds dt < 0) then 45%N else 43%N;
    Z.abs_N (datetime.microseconds dt) ].

(** A forum without posts. *)
Definition no_posts (limit : Z) : result (list Post.t) := Ok [].
Definition no_top_posts (limit : Z) (time_filter : str) : result (list Post.t) := Ok [].
Definition utc (timestamp : Z) : Z := 0.

End Scenario.

(** * Verification *)

(** ** Binary64 arithmetic *)

Module FloatFacts.
Import FloatAxioms SpecFloat.

Lemma compare_finite_pos_Lt (e1 e2 : Z) (m1 m2 : positive) :
  match (e1 ?= e2)%Z with
  | Eq => PosDef.Pos.compare_cont Eq m1 m2
  | Lt => Lt
  | Gt => Gt
  end = Lt ↔ (e1 < e2 ∨ e1 = e2 ∧ Z.pos m1 < Z.pos m2)%Z.
Proof.
  change (PosDef.Pos.compare_cont Eq m1 m2) with (m1 ?= m2)%positive.
  destruct (Z.compare_spec e1 e2) as [->| |].
  - rewrite Pos.compare_lt_iff. split; [intros ?; right; split; [done|lia]|].
    intros [?|[_ ?]]; lia.
  - split; [auto|done].
  - split; [done|lia].
Qed.

Lemma compare_finite_neg_Lt (e1 e2 : Z) (m1 m2 : positive) :
  match (e1 ?= e2)%Z with
  | Eq => CompOpp (PosDef.Pos.compare_cont Eq m1 m2)
  | Lt => Gt
  | Gt => Lt
  end = Lt ↔ (e2 < e1 ∨ e1 = e2 ∧ Z.pos m2 < Z.pos m1)%Z.
Proof.
  change (PosDef.Pos.compare_cont Eq m1 m2) with (m1 ?= m2)%positive.
  destruct (Z.compare_spec e1 e2) as [->| |].
  - rewrite <-Pos.compare_antisym, Pos.compare_lt_iff.
    split; [intros ?; right; split; [done|lia]|]. intros [?|[_ ?]]; lia.
  - split; [done|lia].
  - split; [auto|done].
Qed.

Lemma SFcompare_Lt_trans (a b c : spec_float) :
  SFcompare a b = Some Lt → SFcompare b c = Some Lt → SFcompare a c = Some Lt.
Proof.
  destruct a as [sa|sa| |sa ma ea], b as [sb|sb| |sb mb eb], c as [sc|sc| |sc mc ec];
    simpl; try done;
    repeat match goal with s : bool |- _ => destruct s end; simpl; try done.
  all: intros [= Hab] [= Hbc]; f_equal.
  all: rewrite ?compare_finite_pos_Lt, ?compare_finite_neg_Lt in *; lia.
Qed.

Lemma SFcompare_Lt_asym (a b : spec_float) :
  SFcompare a b = Some Lt → SFcompare b a ≠ Some Lt.
Proof.
  destruct a as [sa|sa| |sa ma ea], b as [sb|sb| |sb mb eb];
    simpl; try done;
    repeat match goal with s : bool |- _ => destruct s end; simpl; try done.
  all: intros [= Hab] [= Hba].
  all: rewrite ?compare_finite_pos_Lt, ?compare_finite_neg_Lt in *; lia.
Qed.

(** [<] on binary64 numbers is transitive. *)
Lemma ltb_trans (x y z : float) :
  (x <? y)%float = true → (y <? z)%float = true → (x <? z)%float = true.
Proof.
  rewrite !ltb_spec. unfold SFltb.
  destruct (SFcompare (Prim2SF x) (Prim2SF y)) as [[]|] eqn:Hxy; try done.
  destruct (SFcompare (Prim2SF y) (Prim2SF z)) as [[]|] eqn:Hyz; try done.
  by rewrite (SFcompare_Lt_trans _ _ _ Hxy Hyz).
Qed.

Lemma ltb_asym (x y : float) :
  (x <? y)%float = true → (y <? x)%float = false.
Proof.
  rewrite !ltb_spec. unfold SFltb.
  destruct (SFcompare (Prim2SF x) (Prim2SF y)) as [[]|] eqn:Hxy; try done.
  intros _. pose proof (SFcompare_Lt_asym _ _ Hxy).
  by destruct (SFcompare (Prim2SF y) (Prim2SF x)) as [[]|].
Qed.

Lemma SFcompare_Lt_not_nan (a b : spec_float) :
  SFcompare a b = Some Lt → SFcompare a a = Some Eq ∧ SFcompare b b = Some Eq.
Proof.
  assert (Hrefl : ∀ x, x ≠ S754_nan → SFcompare x x = Some Eq).
  { intros [s|s| |s m e] Hx; simpl; try done; [by destruct s|].
    rewrite Z.compare_refl.
    change (PosDef.Pos.compare_cont Eq m m) with (m ?= m)%positive.
    rewrite Pos.compare_refl. by destruct s. }
  intros Hab. split; apply Hrefl; intros ->; [done|by destruct a].
Qed.

(** A number on either side of a [<] that holds is not a NaN. *)
Lemma ltb_not_nan_l (x y : float) : (x <? y)%float = true → (x =? x)%float = true.
Proof.
  rewrite ltb_spec, eqb_spec. unfold SFltb, SFeqb.
  destruct (SFcompare (Prim2SF x) (Prim2SF y)) as [[]|] eqn:Hxy; try done.
  by destruct (SFcompare_Lt_not_nan _ _ Hxy) as [-> _].
Qed.

Lemma ltb_not_nan_r (x y : float) : (x <? y)%float = true → (y =? y)%float = true.
Proof.
  rewrite ltb_spec, eqb_spec. unfold SFltb, SFeqb.
  destruct (SFcompare (Prim2SF x) (Prim2SF y)) as [[]|] eqn:Hxy; try done.
  by destruct (SFcompare_Lt_not_nan _ _ Hxy) as [_ ->].
Qed.

Lemma is_finite_nonzero_spec (x : float) :
  is_finite_nonzero x = true → ∃ s m e, Prim2SF x = S754_finite s m e.
Proof.
  unfold is_finite_nonzero. rewrite classify_spec. unfold SF64classify, SFclassify.
  destruct (Prim2SF x) as [s|s| |s m e]; try (by destruct s); [done|]. by eexists _, _, _.
Qed.

(** [(x - x) / x * 100] is a zero for a finite [x] other than zero. *)
Lemma percent_of_no_change (x : float) :
  is_finite_nonzero x = true → ((x - x) / x * 100 =? 0)%float = true.
Proof.
  intros (s & m & e & Hx)%is_finite_nonzero_spec.
  rewrite eqb_spec, mul_spec, div_spec, sub_spec, Hx.
  unfold SF64sub, SFsub.
  match goal with
  | |- context [binary_normalize _ _ ?d _ _] => replace d with 0%Z by lia
  end.
  by destruct s.
Qed.

End FloatFacts.


(** ** The performance calculator *)

Module StockAnalyzerProofs.
Import StockAnalyzer PerformanceSpec.
Local Open Scope Z_scope.

(** *** The anchor search *)

Lemma find_post_price_date_Some (dates : list Z) (post_date d : Z) :
  find_post_price_date dates post_date = Some d →
  ∃ before after, dates = before ++ d :: after ∧ post_date ≤ d ∧
    Forall (λ x, x < post_date) before.
Proof.
  induction dates as [|x dates IH]; simpl; [done|].
  case_bool_decide as Hx.
  - intros [= ->]. exists [], dates. by repeat split.
  - intros (before & after & -> & Hd & Hbefore)%IH.
    exists (x :: before), after. repeat split; [done|].
    constructor; [lia|done].
Qed.

Lemma find_post_price_date_None (dates : list Z) (post_date : Z) :
  find_post_price_date dates post_date = None ↔ Forall (λ x, x < post_date) dates.
Proof.
  induction dates as [|x dates IH]; simpl.
  - split; [constructor|done].
  - case_bool_decide as Hx.
    + split; [done|]. intros [? _]%Forall_cons. lia.
    + rewrite IH, Forall_cons. split; [|tauto]. intros ?. split; [lia|done].
Qed.

Lemma find_post_price_date_is_Some (dates : list Z) (post_date : Z) :
  is_Some (find_post_price_date dates post_date) ↔ ∃ d, d ∈ dates ∧ post_date ≤ d.
Proof.
  rewrite <-not_eq_None_Some, find_post_price_date_None, Forall_forall.
  split.
  - intros Hnot. destruct (find_post_price_date dates post_date) as [d|] eqn:Hfind.
    + apply find_post_price_date_Some in Hfind as (before & after & -> & Hd & _).
      exists d. split; [|done]. rewrite elem_of_app, elem_of_cons. auto.
    + apply find_post_price_date_None in Hfind. rewrite Forall_forall in Hfind. done.
  - intros (d & Hin & Hd) Hall. specialize (Hall d Hin). lia.
Qed.

(** *** Reading a close by date *)

Lemma close_on_Ok (stock_data : DataFrame) (d : Z) :
  d ∈ index_date stock_data →
  ∃ c before after, close_on stock_data d = Ok c ∧
    stock_data = before ++ (d, c) :: after ∧ d ∉ index_date before.
Proof.
  unfold close_on, index_date.
  induction stock_data as [|[x c] rows IH]; [by intros ?%elem_of_nil|].
  rewrite fmap_cons, elem_of_cons. simpl. intros Hd.
  destruct (decide (x = d)) as [->|Hne].
  - rewrite filter_cons_True by done. exists c, [], rows. repeat split. apply not_elem_of_nil.
  - rewrite filter_cons_False by done.
    destruct IH as (c' & before & after & Hc & -> & Hnot); [by destruct Hd|].
    exists c', ((x, c) :: before), after. repeat split; [done|].
    rewrite fmap_cons, not_elem_of_cons. by split.
Qed.


(** *** The closest trading day on or after a target *)

Lemma find_closest_closest_of (dates seen : list Z) (target : Z)
    (closest_date : option Z) (min_diff : num) :
  closest_of seen target closest_date min_diff →
  closest_of (seen ++ dates) target
    (find_closest dates target closest_date min_diff).1
    (find_closest dates target closest_date min_diff).2.
Proof.
  revert seen closest_date min_diff.
  induction dates as [|x dates IH]; intros seen closest_date min_diff Hinv; simpl.
  { by rewrite app_nil_r. }
  replace (seen ++ x :: dates) with ((seen ++ [x]) ++ dates) by by rewrite <-app_assoc.
  case_bool_decide as Hx; [destruct (num_gt min_diff (x - target)) eqn:Hgt|]; apply IH.
  - simpl. repeat split; [set_solver|done|].
    apply Forall_app. split; [|by constructor].
    destruct closest_date as [d|]; simpl in Hinv.
    + destruct Hinv as (-> & _ & _ & Hmin). simpl in Hgt.
      eapply Forall_impl; [done|]. simpl. intros y Hy ?. apply Z.ltb_lt in Hgt. lia.
    + destruct Hinv as (_ & Hnone). eapply Forall_impl; [done|]. simpl. lia.
  - destruct closest_date as [d|]; simpl in Hinv.
    + destruct Hinv as (-> & Hd & Htd & Hmin). simpl in Hgt. apply Z.ltb_ge in Hgt.
      simpl. repeat split; [set_solver|done|].
      apply Forall_app. split; [done|]. constructor; [lia|constructor].
    + destruct Hinv as (-> & _). done.
  - destruct closest_date as [d|]; simpl in *.
    + destruct Hinv as (-> & Hd & Htd & Hmin). repeat split; [set_solver|done|].
      apply Forall_app. split; [done|]. constructor; [lia|constructor].
    + destruct Hinv as (-> & Hnone). split; [done|].
      apply Forall_app. split; [done|]. constructor; [lia|constructor].
Qed.

Lemma horizon_date_Some (dates : list Z) (target d : Z) :
  horizon_date dates target = Some d ↔
  d ∈ dates ∧ target ≤ d ≤ target + 5 ∧ ∀ x, x ∈ dates → target ≤ x → d ≤ x.
Proof.
  unfold horizon_date.
  pose proof (find_closest_closest_of dates [] target None inf) as Hinv.
  destruct (find_closest dates target None inf) as [closest min_diff].
  simpl in Hinv. specialize (Hinv (conj eq_refl (Forall_nil_2 _))).
  destruct closest as [d'|]; simpl in Hinv.
  - destruct Hinv as (-> & Hd' & Htd' & Hmin). rewrite Forall_forall in Hmin. simpl.
    destruct (d' - target <=? 5) eqn:Hle; [apply Z.leb_le in Hle|apply Z.leb_gt in Hle].
    + split.
      * intros [= <-]. repeat split; [done|lia|lia|done].
      * intros (Hd & Htd & Hdmin). f_equal.
        pose proof (Hmin d Hd). pose proof (Hdmin d' Hd'). lia.
    + split; [done|]. intros (Hd & Htd & Hdmin).
      pose proof (Hmin d Hd). lia.
  - destruct Hinv as (_ & Hnone). rewrite Forall_forall in Hnone.
    split; [done|]. intros (Hd & Htd & _). specialize (Hnone d Hd). lia.
Qed.

Lemma horizon_date_None (dates : list Z) (target : Z) :
  horizon_date dates target = None ↔ ∀ x, x ∈ dates → target ≤ x → target + 5 < x.
Proof.
  split.
  - intros Hnone x Hx Htx.
    destruct (decide (target + 5 < x)) as [|Hnear]; [done|exfalso].
    (* some date lies within the tolerance: take the least one *)
    unfold horizon_date in Hnone.
    pose proof (find_closest_closest_of dates [] target None inf) as Hinv.
    destruct (find_closest dates target None inf) as [closest min_diff].
    simpl in Hinv. specialize (Hinv (conj eq_refl (Forall_nil_2 _))).
    destruct closest as [d'|]; simpl in Hinv.
    + destruct Hinv as (-> & Hd' & Htd' & Hmin). rewrite Forall_forall in Hmin.
      simpl in Hnone. destruct (d' - target <=? 5) eqn:Hle; [done|].
      apply Z.leb_gt in Hle. pose proof (Hmin x Hx). lia.
    + destruct Hinv as (_ & Hall). rewrite Forall_forall in Hall.
      specialize (Hall x Hx). lia.
  - intros Hfar. destruct (horizon_date dates target) as [d|] eqn:Hd; [|done].
    apply horizon_date_Some in Hd as (Hd & Htd & _). specialize (Hfar d Hd). lia.
Qed.

(** *** Attribute access *)

Lemma getattr_setattr (p : StockPerformance.t) (a a' : StockPerformance.attr) (v : float) :
  StockPerformance.getattr (StockPerformance.setattr p a v) a' =
  if decide (a = a') then Some v else StockPerformance.getattr p a'.
Proof. by destruct p, a, a'. Qed.

Lemma setattr_fixed (p : StockPerformance.t) (a : StockPerformance.attr) (v : float) :
  StockPerformance.ticker (StockPerformance.setattr p a v) = StockPerformance.ticker p ∧
  StockPerformance.post_date (StockPerformance.setattr p a v) = StockPerformance.post_date p ∧
  StockPerformance.price_at_post (StockPerformance.setattr p a v) =
    StockPerformance.price_at_post p.
Proof. by destruct p, a. Qed.

(** *** One period *)

Lemma horizon_price_Some (stock_data : DataFrame) (target d : Z) :
  horizon_date (index_date stock_data) target = Some d →
  ∃ c, close_on stock_data d = Ok c ∧ horizon_price stock_data target = Some c.
Proof.
  intros Hd. unfold horizon_price. rewrite Hd. simpl.
  apply horizon_date_Some in Hd as (Hin & _).
  destruct (close_on_Ok _ _ Hin) as (c & _ & _ & -> & _). by exists c.
Qed.

Lemma horizon_price_None (stock_data : DataFrame) (target : Z) :
  horizon_date (index_date stock_data) target = None ↔
  horizon_price stock_data target = None.
Proof.
  split; [by unfold horizon_price; intros ->|].
  destruct (horizon_date (index_date stock_data) target) as [d|] eqn:Hd; [|done].
  destruct (horizon_price_Some _ _ _ Hd) as (c & _ & ->). done.
Qed.

Lemma period_step_Ok (stock_data : DataFrame) (post_date : Z) (price_at_post : float)
    (performance : StockPerformance.t) (days : Z) (return_attr price_attr : StockPerformance.attr) :
  period_step stock_data post_date price_at_post performance (days, return_attr, price_attr) =
  Ok match horizon_price stock_data (post_date + days) with
     | Some future_price =>
         StockPerformance.setattr
           (StockPerformance.setattr performance return_attr
              (return_pct future_price price_at_post))
           price_attr future_price
     | None => performance
     end.
Proof.
  destruct (horizon_date (index_date stock_data) (post_date + days)) as [d|] eqn:Hd.
  - destruct (horizon_price_Some _ _ _ Hd) as (c & Hc & ->).
    unfold period_step. unfold horizon_date in Hd.
    destruct (find_closest _ _ _ _) as [[closest|] min_diff]; [|done].
    destruct (num_le min_diff 5); [|done].
    injection Hd as ->. by rewrite Hc.
  - pose proof Hd as Hd'. apply horizon_price_None in Hd' as ->.
    unfold period_step. unfold horizon_date in Hd.
    destruct (find_closest _ _ _ _) as [[closest|] min_diff]; [|done].
    by destruct (num_le min_diff 5).
Qed.

(** *** The loop over the periods *)

Lemma periods_loop_Ok (stock_data : DataFrame) (post_date : Z) (price_at_post : float)
    (periods : list (Z * StockPerformance.attr * StockPerformance.attr))
    (performance : StockPerformance.t) :
  NoDup (period_attrs periods) →
  (∀ a, a ∈ period_attrs periods → StockPerformance.getattr performance a = None) →
  ∃ performance',
    periods_loop stock_data post_date price_at_post periods performance = Ok performance' ∧
    StockPerformance.ticker performance' = StockPerformance.ticker performance ∧
    StockPerformance.post_date performance' = StockPerformance.post_date performance ∧
    StockPerformance.price_at_post performance' = StockPerformance.price_at_post performance ∧
    (∀ a, a ∉ period_attrs periods →
       StockPerformance.getattr performance' a = StockPerformance.getattr performance a) ∧
    (∀ days return_attr price_attr, (days, return_attr, price_attr) ∈ periods →
       StockPerformance.getattr performance' price_attr =
         horizon_price stock_data (post_date + days) ∧
       StockPerformance.getattr performance' return_attr =
         (λ future_price, return_pct future_price price_at_post) <$>
           horizon_price stock_data (post_date + days)).
Proof.
  revert performance.
  induction periods as [|[[days r] p] periods IH]; intros performance Hnodup Hnone.
  { exists performance. split; [done|]. repeat (split; [done|]). by intros ??? ?%elem_of_nil. }
  unfold period_attrs in *. rewrite bind_cons in Hnodup, Hnone |- *. simpl in Hnodup, Hnone.
  apply NoDup_cons in Hnodup as [Hr Hnodup]. apply NoDup_cons in Hnodup as [Hp Hnodup].
  cbn [periods_loop]. rewrite period_step_Ok. cbn [mbind result_bind].
  set (performance1 := match horizon_price stock_data (post_date + days) with
                       | Some _ => _ | None => _ end).
  assert (Hget1 : ∀ a, a ≠ r → a ≠ p →
            StockPerformance.getattr performance1 a = StockPerformance.getattr performance a).
  { intros a Har Hap. unfold performance1.
    destruct (horizon_price _ _); [|done].
    rewrite !getattr_setattr. by repeat case_decide. }
  assert (Hfixed1 :
    StockPerformance.ticker performance1 = StockPerformance.ticker performance ∧
    StockPerformance.post_date performance1 = StockPerformance.post_date performance ∧
    StockPerformance.price_at_post performance1 = StockPerformance.price_at_post performance).
  { unfold performance1. destruct (horizon_price _ _); [|done].
    destruct (setattr_fixed (StockPerformance.setattr performance r
                (return_pct f price_at_post)) p f) as (-> & -> & ->).
    apply setattr_fixed. }
  assert (Hhead :
    StockPerformance.getattr performance1 p = horizon_price stock_data (post_date + days) ∧
    StockPerformance.getattr performance1 r =
      (λ future_price, return_pct future_price price_at_post) <$>
        horizon_price stock_data (post_date + days)).
  { unfold performance1. destruct (horizon_price _ _) as [c|]; simpl.
    - rewrite !getattr_setattr. rewrite decide_True by done.
      rewrite decide_False; [by rewrite decide_True by done|].
      intros ->. apply Hr. by left.
    - split; apply Hnone; rewrite !elem_of_cons; auto. }
  clearbody performance1.
  destruct (IH performance1 Hnodup) as (performance' & Hloop & Htk & Hpd & Hpp & Hother & Hset).
  { intros a Ha. rewrite Hget1.
    - apply Hnone. rewrite !elem_of_cons. auto.
    - intros ->. apply Hr. by apply elem_of_cons; right.
    - by intros ->. }
  exists performance'. destruct Hfixed1 as (Htk1 & Hpd1 & Hpp1).
  split; [done|]. split; [congruence|]. split; [congruence|]. split; [congruence|].
  split.
  - intros a Ha. apply not_elem_of_cons in Ha as [Har Ha].
    apply not_elem_of_cons in Ha as [Hap Ha]. rewrite Hother by done. by apply Hget1.
  - intros days' r' p' [[= -> -> ->]|Hin]%elem_of_cons; [|by apply Hset].
    apply not_elem_of_cons in Hr as [_ Hr]. by rewrite !Hother by done.
Qed.

(** *** The duplicate check *)

Lemma first_occurrences_elem_of (processed_pairs : gset (str * Z))
    (mentions : list StockMention.t) (mention : StockMention.t) :
  mention ∈ first_occurrences processed_pairs mentions →
  mention ∈ mentions ∧ pair_key mention ∉ processed_pairs.
Proof.
  revert processed_pairs.
  induction mentions as [|m rest IH]; intros processed_pairs; simpl.
  { by intros ?%elem_of_nil. }
  case_bool_decide as Hm.
  - intros [? ?]%IH. split; [by right|done].
  - intros [->|[? Hnot]%IH]%elem_of_cons; [split; [by left|done]|].
    split; [by right|]. intros ?. apply Hnot. apply elem_of_union. by left.
Qed.

Lemma first_occurrences_app (processed_pairs : gset (str * Z))
    (before after : list StockMention.t) :
  first_occurrences processed_pairs (before ++ after) =
  first_occurrences processed_pairs before ++
  first_occurrences (processed_pairs ∪ list_to_set (pair_key <$> before)) after.
Proof.
  revert processed_pairs.
  induction before as [|m before IH]; intros processed_pairs; simpl.
  { by rewrite union_empty_r_L. }
  rewrite (assoc_L (∪)).
  case_bool_decide as Hm; rewrite IH; [|done].
  do 3 f_equal. rewrite (comm_L (∪)). symmetry.
  by apply subseteq_union_1_L, singleton_subseteq_l.
Qed.

(** A mention whose key was already seen is skipped. *)
Lemma first_occurrences_skip (processed_pairs : gset (str * Z))
    (before after : list StockMention.t) (mention : StockMention.t) :
  pair_key mention ∈ processed_pairs ∪ list_to_set (pair_key <$> before) →
  first_occurrences processed_pairs (before ++ mention :: after) =
  first_occurrences processed_pairs (before ++ after).
Proof.
  intros Hseen. rewrite !first_occurrences_app. f_equal. simpl.
  by rewrite bool_decide_eq_true_2.
Qed.

(** *** Given a provider *)

Section WithProvider.
Variable yf_history : str → Z → Z → result DataFrame.

(** *** One mention *)

(** Membership of a configured period in [TIME_PERIODS]. *)
Ltac in_time_periods :=
  unfold Config.TIME_PERIODS; rewrite !elem_of_cons; auto 10.

Lemma time_periods_NoDup : NoDup (period_attrs time_periods).
Proof. by apply (bool_decide_unpack _). Qed.

Lemma analyze_None (mention : StockMention.t) (stock_data : DataFrame) :
  find_post_price_date (index_date stock_data)
    (datetime.date (StockMention.post_date mention)) = None →
  analyze mention stock_data = Ok None.
Proof. unfold analyze. by intros ->. Qed.

Lemma analyze_Some (mention : StockMention.t) (stock_data : DataFrame) (d : Z) :
  find_post_price_date (index_date stock_data)
    (datetime.date (StockMention.post_date mention)) = Some d →
  ∃ performance,
    analyze mention stock_data = Ok (Some performance) ∧
    performance_of mention stock_data performance.
Proof.
  intros Hfind. unfold analyze. rewrite Hfind.
  pose proof Hfind as (before & after & Hdates & _ & _)%find_post_price_date_Some.
  destruct (close_on_Ok stock_data d) as (c & _ & _ & Hc & _).
  { rewrite Hdates, elem_of_app, elem_of_cons. auto. }
  rewrite Hc. cbn [mbind result_bind].
  destruct (periods_loop_Ok stock_data (datetime.date (StockMention.post_date mention)) c
              time_periods
              (StockPerformance.new (StockMention.ticker mention)
                 (StockMention.post_date mention) c))
    as (performance & -> & Htk & Hpd & Hpp & _ & Hset).
  { apply time_periods_NoDup. }
  { by intros []. }
  exists performance. split; [done|].
  split; [done|]. split; [done|]. split.
  - exists d. split; [done|]. by rewrite Hpp.
  - intros days r p Hin. rewrite Hpp. by apply Hset.
Qed.

Lemma process_Some (mention : StockMention.t) (performance : StockPerformance.t) :
  process yf_history mention = Some performance →
  ∃ stock_data,
    fetched yf_history mention = Some stock_data ∧
    performance_of mention stock_data performance.
Proof.
  unfold process, fetched.
  destruct (get_stock_data _ _ _ _) as [stock_data|]; [|done].
  destruct (find_post_price_date (index_date stock_data)
              (datetime.date (StockMention.post_date mention))) as [d|] eqn:Hfind.
  - destruct (analyze_Some _ _ _ Hfind) as (performance' & -> & Hof).
    intros [= <-]. by exists stock_data.
  - by rewrite (analyze_None _ _ Hfind).
Qed.

Lemma process_is_Some (mention : StockMention.t) (stock_data : DataFrame) :
  fetched yf_history mention = Some stock_data →
  is_Some (find_post_price_date (index_date stock_data)
             (datetime.date (StockMention.post_date mention))) →
  is_Some (process yf_history mention).
Proof.
  unfold process, fetched. intros -> [d Hfind].
  destruct (analyze_Some _ _ _ Hfind) as (performance & -> & _). by eexists.
Qed.

Lemma process_None (mention : StockMention.t) :
  process yf_history mention = None ↔
  match fetched yf_history mention with
  | None => True
  | Some stock_data =>
      find_post_price_date (index_date stock_data)
        (datetime.date (StockMention.post_date mention)) = None
  end.
Proof.
  destruct (fetched yf_history mention) as [stock_data|] eqn:Hfetched.
  - split.
    + intros Hnone. apply eq_None_not_Some. intros Hsome.
      destruct (process_is_Some _ _ Hfetched Hsome) as [? ?]. congruence.
    + intros Hfind. unfold process. unfold fetched in Hfetched. rewrite Hfetched.
      by rewrite (analyze_None _ _ Hfind).
  - split; [done|]. intros _. unfold process. unfold fetched in Hfetched.
    by rewrite Hfetched.
Qed.

Lemma process_key (mention : StockMention.t) (performance : StockPerformance.t) :
  process yf_history mention = Some performance →
  performance_key performance = pair_key mention.
Proof.
  intros (stock_data & _ & Htk & Hpd & _)%process_Some.
  unfold performance_key, pair_key. by rewrite Htk, Hpd.
Qed.

(** *** The loop over the mentions *)

Lemma mentions_loop_first_occurrences (mentions : list StockMention.t)
    (processed_pairs : gset (str * Z)) (performances : list StockPerformance.t) :
  mentions_loop yf_history mentions processed_pairs performances =
  performances ++ omap (process yf_history) (first_occurrences processed_pairs mentions).
Proof.
  revert processed_pairs performances.
  induction mentions as [|mention rest IH]; intros processed_pairs performances; simpl.
  { by rewrite app_nil_r. }
  case_bool_decide; [done|]. simpl.
  destruct (process yf_history mention) as [performance|]; rewrite IH; [|done].
  by rewrite <-app_assoc.
Qed.

Lemma calculate_performance_first_occurrences (mentions : list StockMention.t) :
  calculate_performance yf_history mentions =
  omap (process yf_history) (first_occurrences ∅ mentions).
Proof. apply mentions_loop_first_occurrences. Qed.

Lemma omap_process_other (mentions : list StockMention.t) (key : str * Z) :
  Forall (λ m, pair_key m ≠ key) mentions →
  filter (λ p, performance_key p = key) (omap (process yf_history) mentions) = [].
Proof.
  induction 1 as [|m mentions Hm _ IH]; [done|]. simpl.
  destruct (process yf_history m) as [p|] eqn:Hp; [|done].
  rewrite filter_cons_False; [done|]. by rewrite (process_key _ _ Hp).
Qed.

(** The records of the output that carry the key of a mention are produced
    by the first mention with that key, and by it alone. *)
Lemma records_of_first_occurrence (before after : list StockMention.t)
    (mention : StockMention.t) :
  Forall (λ m, pair_key m ≠ pair_key mention) before →
  filter (λ p, performance_key p = pair_key mention)
    (calculate_performance yf_history (before ++ mention :: after)) =
  option_list (process yf_history mention).
Proof.
  intros Hbefore. rewrite calculate_performance_first_occurrences, first_occurrences_app.
  simpl. rewrite bool_decide_eq_false_2.
  2:{ rewrite elem_of_union, elem_of_list_to_set, list_elem_of_fmap.
      intros [[]%elem_of_empty|(m & Hkey & Hm)].
      rewrite Forall_forall in Hbefore. by apply (Hbefore m Hm). }
  rewrite omap_app, filter_app. simpl.
  rewrite omap_process_other.
  2:{ apply Forall_forall. intros m [Hm _]%first_occurrences_elem_of.
      rewrite Forall_forall in Hbefore. by apply Hbefore. }
  assert (Hafter : filter (λ p, performance_key p = pair_key mention)
            (omap (process yf_history)
               (first_occurrences
                  (∅ ∪ list_to_set (pair_key <$> before) ∪ {[pair_key mention]}) after)) = []).
  { apply omap_process_other, Forall_forall.
    intros m [_ Hm]%first_occurrences_elem_of Hkey. apply Hm.
    apply elem_of_union. right. by apply elem_of_singleton. }
  destruct (process yf_history mention) as [p|] eqn:Hp; simpl; [|exact Hafter].
  rewrite filter_cons_True by by apply process_key. f_equal. exact Hafter.
Qed.

Lemma calculate_performance_elem_of (mentions : list StockMention.t)
    (performance : StockPerformance.t) :
  performance ∈ calculate_performance yf_history mentions →
  ∃ mention, mention ∈ mentions ∧ process yf_history mention = Some performance.
Proof.
  rewrite calculate_performance_first_occurrences, list_elem_of_omap.
  intros (mention & [Hm _]%first_occurrences_elem_of & Hp). by exists mention.
Qed.

Lemma emitted_performance_of (mentions : list StockMention.t)
    (performance : StockPerformance.t) :
  performance ∈ calculate_performance yf_history mentions →
  ∃ mention stock_data,
    mention ∈ mentions ∧ fetched yf_history mention = Some stock_data ∧
    performance_of mention stock_data performance.
Proof.
  intros (mention & Hin & Hprocess)%calculate_performance_elem_of.
  apply process_Some in Hprocess as (stock_data & Hfetched & Hof).
  by exists mention, stock_data.
Qed.

(** *** The properties of [calculate_performance] *)

(** C1. Horizon alignment.  For every emitted record and every configured
    period [(days, return_attr, price_attr)], with
    [target_date = post calendar date + days] and the series fetched for the
    record's mention: when the price of the period is set, it is the close
    of a trading date of the series that is on or after the target, has the
    smallest difference to the target among all such dates, and lies at
    most 5 days after the target, and the return is set as well; when the
    price is unset, so is the return, and every trading date on or after
    the target lies more than 5 days after it.  In particular a smallest
    difference of 6 days or more leaves price and return unset. *)
Theorem horizon_alignment (mentions : list StockMention.t)
    (performance : StockPerformance.t) :
  performance ∈ calculate_performance yf_history mentions →
  ∃ mention stock_data,
    mention ∈ mentions ∧
    fetched yf_history mention = Some stock_data ∧
    StockPerformance.ticker performance = StockMention.ticker mention ∧
    StockPerformance.post_date performance = StockMention.post_date mention ∧
    ∀ days return_attr price_attr,
      (days, return_attr, price_attr) ∈ Config.TIME_PERIODS →
      let target_date := datetime.date (StockMention.post_date mention) + days in
      match StockPerformance.getattr performance price_attr with
      | Some price =>
          ∃ matched,
            matched ∈ index_date stock_data ∧
            target_date ≤ matched ∧
            (∀ x, x ∈ index_date stock_data → target_date ≤ x →
               matched - target_date ≤ x - target_date) ∧
            matched - target_date ≤ 5 ∧
            close_on stock_data matched = Ok price ∧
            is_Some (StockPerformance.getattr performance return_attr)
      | None =>
          StockPerformance.getattr performance return_attr = None ∧
          ∀ x, x ∈ index_date stock_data → target_date ≤ x → 5 < x - target_date
      end ∧
      ((∀ x, x ∈ index_date stock_data → target_date ≤ x → 6 ≤ x - target_date) →
       StockPerformance.getattr performance price_attr = None ∧
       StockPerformance.getattr performance return_attr = None).
Proof.
  intros (mention & stock_data & Hin & Hfetched & Htk & Hpd & _ & Hperiods)%emitted_performance_of.
  exists mention, stock_data. do 4 (split; [done|]).
  intros days return_attr price_attr Hperiod target_date.
  destruct (Hperiods days return_attr price_attr Hperiod) as [Hprice Hreturn].
  fold target_date in Hprice, Hreturn. rewrite Hprice, Hreturn.
  destruct (horizon_date (index_date stock_data) target_date) as [matched|] eqn:Hmatched.
  - destruct (horizon_price_Some _ _ _ Hmatched) as (c & Hc & ->).
    apply horizon_date_Some in Hmatched as (Hm & [Hlo Hhi] & Hmin).
    split.
    + exists matched. split; [done|]. split; [done|].
      split; [intros x Hx Htx; specialize (Hmin x Hx Htx); lia|].
      split; [lia|]. split; [done|]. by eexists.
    + intros Hfar. specialize (Hfar matched Hm Hlo). lia.
  - pose proof Hmatched as ->%horizon_price_None.
    rewrite horizon_date_None in Hmatched.
    split; [|done]. split; [done|].
    intros x Hx Htx. specialize (Hmatched x Hx Htx). lia.
Qed.

(** C2, as the code has it.  When a (ticker, calendar day) pair appears
    several times in the input, the output holds at most one record for the
    pair; it holds exactly one when the series fetched for the first
    occurrence is non-empty and has a trading date on or after the post's
    calendar date, and none otherwise.  The record carries the first
    occurrence's full timestamp, and a later mention of the pair is skipped:
    the output is the one computed without it. *)
Theorem duplicate_mentions_collapse (before between after : list StockMention.t)
    (first duplicate : StockMention.t) :
  Forall (λ m, pair_key m ≠ pair_key first) before →
  pair_key duplicate = pair_key first →
  let mentions := before ++ first :: between ++ duplicate :: after in
  let records := records_for yf_history (pair_key first) mentions in
  (length records ≤ 1)%nat ∧
  (length records = 1%nat ↔
     ∃ stock_data d,
       fetched yf_history first = Some stock_data ∧
       d ∈ index_date stock_data ∧
       datetime.date (StockMention.post_date first) ≤ d) ∧
  (∀ p, p ∈ records → StockPerformance.post_date p = StockMention.post_date first) ∧
  calculate_performance yf_history mentions =
    calculate_performance yf_history (before ++ first :: between ++ after).
Proof.
  intros Hbefore Hkey mentions records.
  assert (Hrecords : records = option_list (process yf_history first)).
  { by apply records_of_first_occurrence. }
  split; [|split; [|split]].
  - rewrite Hrecords. destruct (process yf_history first); simpl; lia.
  - rewrite Hrecords. split.
    + destruct (process yf_history first) as [p|] eqn:Hp; [|done]. intros _.
      apply process_Some in Hp as (stock_data & Hfetched & _ & _ & (d & Hd & _) & _).
      exists stock_data, d. split; [done|].
      apply find_post_price_date_Some in Hd as (rows & rows' & -> & Hd & _).
      split; [|done]. rewrite elem_of_app, elem_of_cons. auto.
    + intros (stock_data & d & Hfetched & Hd & Hle).
      destruct (process_is_Some first stock_data Hfetched) as [p ->]; [|done].
      apply find_post_price_date_is_Some. by exists d.
  - rewrite Hrecords. intros p Hp.
    destruct (process yf_history first) as [p'|] eqn:Hp'; simpl in Hp.
    + apply list_elem_of_singleton in Hp as ->.
      by apply process_Some in Hp' as (stock_data & _ & _ & Hpd & _).
    + by apply elem_of_nil in Hp.
  - unfold mentions. rewrite !calculate_performance_first_occurrences.
    change (before ++ first :: between ++ duplicate :: after)
      with (before ++ (first :: between) ++ duplicate :: after).
    change (before ++ first :: between ++ after)
      with (before ++ (first :: between) ++ after).
    rewrite !(assoc_L (++)). f_equal. apply first_occurrences_skip.
    rewrite Hkey, elem_of_union, elem_of_list_to_set. right.
    apply list_elem_of_fmap. exists first. split; [done|].
    rewrite elem_of_app, elem_of_cons. auto.
Qed.

(** C3. Anchor price.  For a surviving mention whose fetched series is
    [stock_data]: if no trading date of the series is on or after the
    post's calendar date, no record is emitted for the pair; otherwise
    exactly one is, and its [price_at_post] is the close of the first row of
    the series whose date is on or after the post's calendar date, which is
    the earliest such date of a series in ascending date order. *)
Theorem anchor_price (before after : list StockMention.t) (mention : StockMention.t)
    (stock_data : DataFrame) :
  Forall (λ m, pair_key m ≠ pair_key mention) before →
  fetched yf_history mention = Some stock_data →
  let post_date := datetime.date (StockMention.post_date mention) in
  let records := records_for yf_history (pair_key mention) (before ++ mention :: after) in
  ((∀ d, d ∈ index_date stock_data → d < post_date) → records = []) ∧
  ((∃ d, d ∈ index_date stock_data ∧ post_date ≤ d) →
   ∃ performance rows_before d c rows_after,
     records = [performance] ∧
     stock_data = rows_before ++ (d, c) :: rows_after ∧
     Forall (λ row, row.1 < post_date) rows_before ∧
     post_date ≤ d ∧
     StockPerformance.price_at_post performance = c ∧
     (Sorted Z.le (index_date stock_data) →
      ∀ x, x ∈ index_date stock_data → post_date ≤ x → d ≤ x)).
Proof.
  intros Hbefore Hfetched post_date records.
  assert (Hrecords : records = option_list (process yf_history mention)).
  { by apply records_of_first_occurrence. }
  rewrite Hrecords. split.
  - intros Hnone. replace (process yf_history mention) with (@None StockPerformance.t); [done|].
    symmetry. apply process_None. rewrite Hfetched.
    apply find_post_price_date_None, Forall_forall. done.
  - intros Hsome%find_post_price_date_is_Some.
    destruct (process_is_Some mention stock_data Hfetched Hsome) as [performance Hp].
    rewrite Hp. pose proof Hp as (stock_data' & Hfetched' & _ & _ & (d & Hd & Hc) & _)%process_Some.
    assert (stock_data' = stock_data) as -> by congruence.
    pose proof Hd as (dates_before & dates_after & Hdates & Hle & Hlt)%find_post_price_date_Some.
    destruct (close_on_Ok stock_data d) as (c & rows_before & rows_after & Hc' & Hrows & Hfirst).
    { rewrite Hdates, elem_of_app, elem_of_cons. auto. }
    assert (StockPerformance.price_at_post performance = c) as Hprice by congruence.
    (* the rows before the first row dated [d] are the dates before [d] *)
    assert (Hsplit : dates_before = index_date rows_before).
    { unfold index_date in *. rewrite Hrows, fmap_app, fmap_cons in Hdates. simpl in Hdates.
      clear -Hdates Hfirst Hlt Hle. revert dates_before Hdates Hlt.
      induction rows_before as [|[x cx] rows IH]; intros dates_before Hdates Hlt.
      - destruct dates_before as [|y dates_before]; [done|].
        simpl in Hdates. injection Hdates as -> _. apply Forall_cons in Hlt as [? _]. lia.
      - rewrite fmap_cons, not_elem_of_cons in Hfirst. destruct Hfirst as [Hne Hfirst].
        destruct dates_before as [|y dates_before]; simpl in Hdates.
        + injection Hdates as ? _. simpl in *. congruence.
        + injection Hdates as -> Hdates. rewrite fmap_cons. simpl. f_equal.
          apply Forall_cons in Hlt as [_ Hlt]. by apply IH. }
    exists performance, rows_before, d, c, rows_after.
    split; [done|]. split; [done|]. split.
    { subst dates_before. unfold index_date in Hlt. by rewrite Forall_fmap in Hlt. }
    split; [done|]. split; [done|].
    intros Hsorted%Sorted_StronglySorted x Hx Hpx; [|intros ???; lia].
    rewrite Hdates in Hsorted, Hx.
    apply StronglySorted_app_1_r, StronglySorted_cons in Hsorted as [Hafter _].
    rewrite Forall_forall in Hafter, Hlt.
    apply elem_of_app in Hx as [Hx|Hx]; [specialize (Hlt x Hx); lia|].
    apply elem_of_cons in Hx as [->|Hx]; [lia|]. by apply Hafter.
Qed.

(** C4. Return computation.  On every emitted record and for every
    configured period whose price is set, the price is the close of the
    matched trading date and the return is the binary64 value of
    [(price - price_at_post) / price_at_post * 100], stored as computed,
    sign included, without a rounding step; at [price_at_post = 10.00] and a
    matched close of [11.50] that value is exactly [15.0]. *)
Theorem return_computation (mentions : list StockMention.t)
    (performance : StockPerformance.t) :
  performance ∈ calculate_performance yf_history mentions →
  (∃ mention stock_data,
     mention ∈ mentions ∧
     fetched yf_history mention = Some stock_data ∧
     StockPerformance.post_date performance = StockMention.post_date mention ∧
     ∀ days return_attr price_attr price,
       (days, return_attr, price_attr) ∈ Config.TIME_PERIODS →
       StockPerformance.getattr performance price_attr = Some price →
       (∃ matched,
          horizon_date (index_date stock_data)
            (datetime.date (StockMention.post_date mention) + days) = Some matched ∧
          close_on stock_data matched = Ok price) ∧
       StockPerformance.getattr performance return_attr =
         Some ((price - StockPerformance.price_at_post performance) /
               StockPerformance.price_at_post performance * 100)%float) ∧
  return_pct 11.5 10 = 15%float.
Proof.
  intros (mention & stock_data & Hin & Hfetched & _ & Hpd & _ & Hperiods)%emitted_performance_of.
  split; [|reflexivity].
  exists mention, stock_data. do 3 (split; [done|]).
  intros days return_attr price_attr price Hperiod Hprice.
  destruct (Hperiods days return_attr price_attr Hperiod) as [Hprice' Hreturn].
  rewrite Hreturn. rewrite Hprice in Hprice'.
  destruct (horizon_date (index_date stock_data)
              (datetime.date (StockMention.post_date mention) + days))
    as [matched|] eqn:Hmatched.
  - destruct (horizon_price_Some _ _ _ Hmatched) as (c & Hc & Hhp).
    rewrite Hhp in Hprice' |- *. injection Hprice' as ->.
    split; [by exists matched|done].
  - apply horizon_price_None in Hmatched. congruence.
Qed.

(** C5. A surviving mention with an anchor price yields one record, whatever
    its horizons: when the fetched series has a trading date on or after
    the post's calendar date, the output holds exactly one record for the
    pair, and when no configured horizon has a trading date within 5 days
    on or after its target, that record, with its five returns unset, is
    still part of the output. *)
Theorem record_emitted_without_horizons (before after : list StockMention.t)
    (mention : StockMention.t) (stock_data : DataFrame) :
  Forall (λ m, pair_key m ≠ pair_key mention) before →
  fetched yf_history mention = Some stock_data →
  (∃ d, d ∈ index_date stock_data ∧ datetime.date (StockMention.post_date mention) ≤ d) →
  ∃ performance,
    records_for yf_history (pair_key mention) (before ++ mention :: after) = [performance] ∧
    performance ∈ calculate_performance yf_history (before ++ mention :: after) ∧
    ((∀ days return_attr price_attr x,
        (days, return_attr, price_attr) ∈ Config.TIME_PERIODS →
        x ∈ index_date stock_data →
        datetime.date (StockMention.post_date mention) + days ≤ x →
        datetime.date (StockMention.post_date mention) + days + 5 < x) →
     StockPerformance.return_1d performance = None ∧
     StockPerformance.return_3d performance = None ∧
     StockPerformance.return_1w performance = None ∧
     StockPerformance.return_2w performance = None ∧
     StockPerformance.return_1m performance = None).
Proof.
  intros Hbefore Hfetched Hanchor%find_post_price_date_is_Some.
  destruct (process_is_Some mention stock_data Hfetched Hanchor) as [performance Hp].
  pose proof (records_of_first_occurrence before after mention Hbefore) as Hrecords.
  rewrite Hp in Hrecords. simpl in Hrecords.
  exists performance. split; [done|]. split.
  { eapply (list_elem_of_filter (λ p, performance_key p = pair_key mention)).
    rewrite Hrecords. by left. }
  intros Hfar.
  apply process_Some in Hp as (stock_data' & Hfetched' & _ & _ & _ & Hperiods).
  assert (stock_data' = stock_data) as -> by congruence.
  assert (Hunset : ∀ days return_attr price_attr,
            (days, return_attr, price_attr) ∈ Config.TIME_PERIODS →
            StockPerformance.getattr performance return_attr = None).
  { intros days r p Hperiod. destruct (Hperiods days r p Hperiod) as [_ ->].
    replace (horizon_price stock_data _) with (@None float); [done|].
    symmetry. apply horizon_price_None, horizon_date_None.
    intros x Hx Htx. by apply (Hfar days r p). }
  repeat split.
  - apply (Hunset 1 StockPerformance.a_return_1d StockPerformance.a_price_1d). in_time_periods.
  - apply (Hunset 3 StockPerformance.a_return_3d StockPerformance.a_price_3d). in_time_periods.
  - apply (Hunset 7 StockPerformance.a_return_1w StockPerformance.a_price_1w). in_time_periods.
  - apply (Hunset 14 StockPerformance.a_return_2w StockPerformance.a_price_2w). in_time_periods.
  - apply (Hunset 30 StockPerformance.a_return_1m StockPerformance.a_price_1m). in_time_periods.
Qed.

(** C10. On every emitted record the two fields of each horizon are set
    together or unset together, and [price_at_post] holds a close of the
    series fetched for the record's mention. *)
Theorem horizon_fields_paired (mentions : list StockMention.t) :
  Forall (λ performance,
    (is_Some (StockPerformance.return_1d performance) ↔
     is_Some (StockPerformance.price_1d performance)) ∧
    (is_Some (StockPerformance.return_3d performance) ↔
     is_Some (StockPerformance.price_3d performance)) ∧
    (is_Some (StockPerformance.return_1w performance) ↔
     is_Some (StockPerformance.price_1w performance)) ∧
    (is_Some (StockPerformance.return_2w performance) ↔
     is_Some (StockPerformance.price_2w performance)) ∧
    (is_Some (StockPerformance.return_1m performance) ↔
     is_Some (StockPerformance.price_1m performance)) ∧
    ∃ mention stock_data row,
      mention ∈ mentions ∧
      fetched yf_history mention = Some stock_data ∧
      row ∈ stock_data ∧
      StockPerformance.price_at_post performance = row.2)
    (calculate_performance yf_history mentions).
Proof.
  apply Forall_forall. intros performance Hemitted.
  apply emitted_performance_of in Hemitted
    as (mention & stock_data & Hin & Hfetched & _ & _ & (d & Hd & Hc) & Hperiods).
  assert (Hpaired : ∀ days return_attr price_attr,
            (days, return_attr, price_attr) ∈ Config.TIME_PERIODS →
            is_Some (StockPerformance.getattr performance return_attr) ↔
            is_Some (StockPerformance.getattr performance price_attr)).
  { intros days r p Hperiod. destruct (Hperiods days r p Hperiod) as [-> ->].
    by rewrite fmap_is_Some. }
  split; [|split; [|split; [|split; [|split]]]].
  - apply (Hpaired 1 StockPerformance.a_return_1d StockPerformance.a_price_1d). in_time_periods.
  - apply (Hpaired 3 StockPerformance.a_return_3d StockPerformance.a_price_3d). in_time_periods.
  - apply (Hpaired 7 StockPerformance.a_return_1w StockPerformance.a_price_1w). in_time_periods.
  - apply (Hpaired 14 StockPerformance.a_return_2w StockPerformance.a_price_2w). in_time_periods.
  - apply (Hpaired 30 StockPerformance.a_return_1m StockPerformance.a_price_1m). in_time_periods.
  - apply find_post_price_date_Some in Hd as (dates_before & dates_after & Hdates & _ & _).
    destruct (close_on_Ok stock_data d) as (c & rows_before & rows_after & Hc' & Hrows & _).
    { rewrite Hdates, elem_of_app, elem_of_cons. auto. }
    exists mention, stock_data, (d, c). do 2 (split; [done|]). split.
    + rewrite Hrows, elem_of_app, elem_of_cons. auto.
    + simpl. congruence.
Qed.

End WithProvider.

(** *** The properties on concrete inputs *)

Section Scenarios.
Import Scenario.

Example time_periods_offsets : Config.TIME_PERIODS.*1.*1 = [1; 3; 7; 14; 30].
Proof. reflexivity. Qed.

Lemma time_periods_days (days : Z) (return_attr price_attr : StockPerformance.attr) :
  (days, return_attr, price_attr) ∈ Config.TIME_PERIODS → 1 ≤ days ≤ 30.
Proof.
  unfold Config.TIME_PERIODS. rewrite !elem_of_cons, elem_of_nil.
  intros [[= -> _ _]|[[= -> _ _]|[[= -> _ _]|[[= -> _ _]|[[= -> _ _]|[]]]]]]; lia.
Qed.

Example spec_output :
  calculate_performance spec_provider [morning] = [spec_record].
Proof. by vm_compute. Qed.

Example gap_output :
  calculate_performance gap_provider [morning; evening] = [gap_record].
Proof. by vm_compute. Qed.

Example short_output :
  calculate_performance short_provider [morning; evening] = [short_record].
Proof. by vm_compute. Qed.

Example no_data_output :
  calculate_performance no_provider [morning; evening] = [].
Proof. by vm_compute. Qed.

(** The spec's example of a calendar with a 6-day gap: the 1-day target
    falls 6 days before the next trading day and stays unset, the 3-day
    target 4 days before it and is matched. *)
Lemma horizon_alignment_witness :
  gap_record ∈ calculate_performance gap_provider [morning; evening] ∧
  ∃ mention stock_data,
    mention ∈ [morning; evening] ∧
    fetched gap_provider mention = Some stock_data ∧
    StockPerformance.ticker gap_record = StockMention.ticker mention ∧
    StockPerformance.post_date gap_record = StockMention.post_date mention ∧
    ∀ days return_attr price_attr,
      (days, return_attr, price_attr) ∈ Config.TIME_PERIODS →
      let target_date := datetime.date (StockMention.post_date mention) + days in
      match StockPerformance.getattr gap_record price_attr with
      | Some price =>
          ∃ matched,
            matched ∈ index_date stock_data ∧
            target_date ≤ matched ∧
            (∀ x, x ∈ index_date stock_data → target_date ≤ x →
               matched - target_date ≤ x - target_date) ∧
            matched - target_date ≤ 5 ∧
            close_on stock_data matched = Ok price ∧
            is_Some (StockPerformance.getattr gap_record return_attr)
      | None =>
          StockPerformance.getattr gap_record return_attr = None ∧
          ∀ x, x ∈ index_date stock_data → target_date ≤ x → 5 < x - target_date
      end ∧
      ((∀ x, x ∈ index_date stock_data → target_date ≤ x → 6 ≤ x - target_date) →
       StockPerformance.getattr gap_record price_attr = None ∧
       StockPerformance.getattr gap_record return_attr = None).
Proof.
  assert (Hemitted : gap_record ∈ calculate_performance gap_provider [morning; evening]).
  { vm_compute. apply list_elem_of_here. }
  split; [exact Hemitted|].
  exact (horizon_alignment gap_provider [morning; evening] gap_record Hemitted).
Defined.

(** C2 as stated fails: the pair (XYZ, 2024-01-02) appears twice, and with
    a provider that has no data for the ticker no record is produced for
    it, rather than exactly one. *)
Lemma exactly_one_record_counterexample :
  pair_key evening = pair_key morning ∧
  length (records_for no_provider (pair_key morning) [morning; evening]) = 0%nat.
Proof. split; vm_compute; reflexivity. Qed.

Lemma duplicate_mentions_collapse_witness :
  (Forall (λ m, pair_key m ≠ pair_key morning) [] ∧
   pair_key evening = pair_key morning) ∧
  let mentions := [morning; evening] in
  let records := records_for gap_provider (pair_key morning) mentions in
  (length records ≤ 1)%nat ∧
  (length records = 1%nat ↔
     ∃ stock_data d,
       fetched gap_provider morning = Some stock_data ∧
       d ∈ index_date stock_data ∧
       datetime.date (StockMention.post_date morning) ≤ d) ∧
  (∀ p, p ∈ records → StockPerformance.post_date p = StockMention.post_date morning) ∧
  calculate_performance gap_provider mentions =
    calculate_performance gap_provider [morning].
Proof.
  assert (Hkey : pair_key evening = pair_key morning) by reflexivity.
  split; [split; [apply Forall_nil_2|exact Hkey]|].
  exact (duplicate_mentions_collapse gap_provider [] [] [] morning evening
           (Forall_nil_2 _) Hkey).
Defined.

Lemma anchor_price_witness :
  fetched gap_provider morning = Some gap_history ∧
  ∃ performance rows_before d c rows_after,
    records_for gap_provider (pair_key morning) [morning; evening] = [performance] ∧
    gap_history = rows_before ++ (d, c) :: rows_after ∧
    Forall (λ row, row.1 < day0) rows_before ∧
    day0 ≤ d ∧
    StockPerformance.price_at_post performance = c ∧
    (Sorted Z.le (index_date gap_history) →
     ∀ x, x ∈ index_date gap_history → day0 ≤ x → d ≤ x).
Proof.
  assert (Hfetched : fetched gap_provider morning = Some gap_history).
  { vm_compute. reflexivity. }
  split; [exact Hfetched|].
  refine (proj2 (anchor_price gap_provider [] [evening] morning gap_history
                   (Forall_nil_2 _) Hfetched) _).
  exists day0. split; [apply list_elem_of_here|]. vm_compute. discriminate.
Defined.

(** The spec's example: an anchor close of 10.00 and a matched close of
    11.50 are stored with the return 15.0. *)
Lemma return_computation_witness :
  gap_record ∈ calculate_performance gap_provider [morning; evening] ∧
  StockPerformance.price_at_post gap_record = 10%float ∧
  StockPerformance.price_3d gap_record = Some 11.5%float ∧
  StockPerformance.return_3d gap_record = Some 15%float ∧
  (∃ mention stock_data,
     mention ∈ [morning; evening] ∧
     fetched gap_provider mention = Some stock_data ∧
     StockPerformance.post_date gap_record = StockMention.post_date mention ∧
     ∀ days return_attr price_attr price,
       (days, return_attr, price_attr) ∈ Config.TIME_PERIODS →
       StockPerformance.getattr gap_record price_attr = Some price →
       (∃ matched,
          horizon_date (index_date stock_data)
            (datetime.date (StockMention.post_date mention) + days) = Some matched ∧
          close_on stock_data matched = Ok price) ∧
       StockPerformance.getattr gap_record return_attr =
         Some ((price - StockPerformance.price_at_post gap_record) /
               StockPerformance.price_at_post gap_record * 100)%float) ∧
  return_pct 11.5 10 = 15%float.
Proof.
  assert (Hemitted : gap_record ∈ calculate_performance gap_provider [morning; evening]).
  { vm_compute. apply list_elem_of_here. }
  split; [exact Hemitted|]. do 3 (split; [reflexivity|]).
  exact (return_computation gap_provider [morning; evening] gap_record Hemitted).
Defined.

(** A history that ends on the post day resolves no horizon, and the
    record is emitted all the same. *)
Lemma record_emitted_without_horizons_witness :
  fetched short_provider morning = Some short_history ∧
  ∃ performance,
    records_for short_provider (pair_key morning) [morning; evening] = [performance] ∧
    performance ∈ calculate_performance short_provider [morning; evening] ∧
    StockPerformance.return_1d performance = None ∧
    StockPerformance.return_3d performance = None ∧
    StockPerformance.return_1w performance = None ∧
    StockPerformance.return_2w performance = None ∧
    StockPerformance.return_1m performance = None.
Proof.
  assert (Hfetched : fetched short_provider morning = Some short_history).
  { vm_compute. reflexivity. }
  split; [exact Hfetched|].
  destruct (record_emitted_without_horizons short_provider [] [evening] morning
              short_history (Forall_nil_2 _) Hfetched)
    as (performance & Hrecords & Hemitted & Hunset).
  { exists day0. split; [apply list_elem_of_further, list_elem_of_here|].
    vm_compute. discriminate. }
  exists performance. split; [exact Hrecords|]. split; [exact Hemitted|].
  apply Hunset. intros days return_attr price_attr x Hperiod Hx Htarget.
  apply time_periods_days in Hperiod.
  change (index_date short_history) with [day0 - 1; day0] in Hx.
  change (datetime.date (StockMention.post_date morning)) with day0 in Htarget.
  apply elem_of_cons in Hx as [->|Hx]; [lia|].
  apply list_elem_of_singleton in Hx as ->. lia.
Defined.

End Scenarios.

End StockAnalyzerProofs.

(** ** The performance calculator: batches *)

Module StockAnalyzerBatches.
Import StockAnalyzer PerformanceSpec StockAnalyzerProofs.
Local Open Scope Z_scope.

(** *** The duplicate check, continued *)

Lemma first_occurrences_sublist (processed_pairs : gset (str * Z))
    (mentions : list StockMention.t) :
  first_occurrences processed_pairs mentions `sublist_of` mentions.
Proof.
  revert processed_pairs.
  induction mentions as [|m mentions IH]; intros processed_pairs; simpl; [done|].
  case_bool_decide; [by apply sublist_cons|by apply sublist_skip].
Qed.

Lemma first_occurrences_NoDup (processed_pairs : gset (str * Z))
    (mentions : list StockMention.t) :
  NoDup (pair_key <$> first_occurrences processed_pairs mentions).
Proof.
  revert processed_pairs.
  induction mentions as [|m mentions IH]; intros processed_pairs; simpl; [constructor|].
  case_bool_decide as Hm; [done|]. rewrite fmap_cons. constructor; [|done].
  intros (m' & Hkey & [_ Hnot]%first_occurrences_elem_of)%list_elem_of_fmap.
  apply Hnot. rewrite <-Hkey. apply elem_of_union. right. by apply elem_of_singleton.
Qed.

(** The duplicate check only asks whether a key was seen: keys can be
    moved from the set of processed pairs into a filter on the mentions. *)
Lemma first_occurrences_union (processed_pairs skipped : gset (str * Z))
    (mentions : list StockMention.t) :
  first_occurrences (processed_pairs ∪ skipped) mentions =
  first_occurrences processed_pairs (filter (λ m, pair_key m ∉ skipped) mentions).
Proof.
  revert processed_pairs.
  induction mentions as [|m mentions IH]; intros processed_pairs; simpl; [done|].
  destruct (decide (pair_key m ∈ skipped)) as [Hskipped|Hskipped].
  - rewrite filter_cons_False by (intros Hnot; by apply Hnot).
    rewrite bool_decide_eq_true_2 by (apply elem_of_union; by right). apply IH.
  - rewrite filter_cons_True by done. simpl.
    destruct (decide (pair_key m ∈ processed_pairs)) as [Hseen|Hseen].
    + rewrite !bool_decide_eq_true_2; [apply IH|done|apply elem_of_union; by left].
    + rewrite !bool_decide_eq_false_2; [|done|by apply not_elem_of_union].
      f_equal. rewrite <-IH. f_equal.
      by rewrite <-!(assoc_L (∪)), (comm_L (∪) skipped).
Qed.

Lemma first_occurrences_filter (processed_pairs : gset (str * Z))
    (mentions : list StockMention.t) :
  first_occurrences processed_pairs mentions =
  first_occurrences ∅ (filter (λ m, pair_key m ∉ processed_pairs) mentions).
Proof. by rewrite <-first_occurrences_union, (left_id_L ∅ (∪)). Qed.

Section WithProvider.
Variable yf_history : str → Z → Z → result DataFrame.

Lemma omap_process_keys (mentions : list StockMention.t) :
  performance_key <$> omap (process yf_history) mentions `sublist_of` pair_key <$> mentions.
Proof.
  induction mentions as [|m mentions IH]; simpl; [done|].
  destruct (process yf_history m) as [p|] eqn:Hp; simpl.
  - rewrite (process_key _ _ _ Hp). by apply sublist_skip.
  - by apply sublist_cons.
Qed.

(** X1. No two records of the output share ticker and calendar day. *)
Theorem output_keys_unique (mentions : list StockMention.t) :
  NoDup (performance_key <$> calculate_performance yf_history mentions).
Proof.
  rewrite calculate_performance_first_occurrences.
  eapply sublist_NoDup; [apply first_occurrences_NoDup|apply omap_process_keys].
Qed.

(** X2. The records come in the order of the mentions they stem from: the
    keys of the output, in order, are obtained from the keys of the input
    by leaving some out.  In particular the output is no longer than the
    input. *)
Theorem output_keys_in_input_order (mentions : list StockMention.t) :
  performance_key <$> calculate_performance yf_history mentions
    `sublist_of` pair_key <$> mentions ∧
  (length (calculate_performance yf_history mentions) ≤ length mentions)%nat.
Proof.
  assert (Hsub : performance_key <$> calculate_performance yf_history mentions
                   `sublist_of` pair_key <$> mentions).
  { rewrite calculate_performance_first_occurrences.
    etrans; [apply omap_process_keys|]. apply fmap_sublist, first_occurrences_sublist. }
  split; [done|]. apply sublist_length in Hsub. by rewrite !length_fmap in Hsub.
Qed.

(** X3. A batch can be processed in two parts: the second part contributes
    the records of its mentions whose (ticker, day) pair does not occur in
    the first part. *)
Theorem calculate_performance_app (first second : list StockMention.t) :
  calculate_performance yf_history (first ++ second) =
  calculate_performance yf_history first ++
  calculate_performance yf_history
    (filter (λ m, pair_key m ∉ pair_key <$> first) second).
Proof.
  rewrite !calculate_performance_first_occurrences, first_occurrences_app, omap_app.
  f_equal. f_equal. rewrite (left_id_L ∅ (∪)), first_occurrences_filter. f_equal.
  apply list_filter_iff. intros m. by rewrite elem_of_list_to_set.
Qed.

End WithProvider.

(** X4. The records of a pair depend on the provider only through its
    answer to the request made for the pair's first mention: two providers
    that agree on that request yield the same records for the pair,
    whatever they answer, or fail to answer, for other requests. *)
Theorem records_depend_on_own_request
    (yf_history yf_history' : str → Z → Z → result DataFrame)
    (before after : list StockMention.t) (mention : StockMention.t) :
  Forall (λ m, pair_key m ≠ pair_key mention) before →
  yf_history (StockMention.ticker mention)
    (datetime.date (StockMention.post_date mention) - 1)
    (datetime.date (StockMention.post_date mention) + 35) =
  yf_history' (StockMention.ticker mention)
    (datetime.date (StockMention.post_date mention) - 1)
    (datetime.date (StockMention.post_date mention) + 35) →
  records_for yf_history (pair_key mention) (before ++ mention :: after) =
  records_for yf_history' (pair_key mention) (before ++ mention :: after).
Proof.
  intros Hbefore Hsame. unfold records_for.
  rewrite !records_of_first_occurrence by done.
  unfold process, get_stock_data. by rewrite Hsame.
Qed.

Section Scenarios.
Import Scenario.

(** Two providers that agree on the history of XYZ; only one of them knows
    ABC, the ticker mentioned first. *)
Lemma records_depend_on_own_request_witness :
  (Forall (λ m, pair_key m ≠ pair_key morning) [other] ∧
   gap_provider (py "XYZ") (day0 - 1) (day0 + 35) =
   two_ticker_provider (py "XYZ") (day0 - 1) (day0 + 35)) ∧
  records_for gap_provider (pair_key morning) [other; morning; evening] =
  records_for two_ticker_provider (pair_key morning) [other; morning; evening].
Proof.
  assert (Hbefore : Forall (λ m, pair_key m ≠ pair_key morning) [other]).
  { repeat constructor. discriminate. }
  assert (Hsame : gap_provider (py "XYZ") (day0 - 1) (day0 + 35) =
                  two_ticker_provider (py "XYZ") (day0 - 1) (day0 + 35)).
  { vm_compute. reflexivity. }
  split; [split; [exact Hbefore|exact Hsame]|].
  exact (records_depend_on_own_request gap_provider two_ticker_provider
           [other] [evening] morning Hbefore Hsame).
Defined.

End Scenarios.

End StockAnalyzerBatches.

(** ** The performance calculator: horizons that share a trading day *)

Module StockAnalyzerHorizons.
Import StockAnalyzer PerformanceSpec StockAnalyzerProofs.
Local Open Scope Z_scope.

(** In a series in ascending date order the anchor date is the least date
    on or after the post. *)
Lemma find_post_price_date_least (dates : list Z) (post_date d : Z) :
  Sorted Z.le dates →
  find_post_price_date dates post_date = Some d →
  ∀ x, x ∈ dates → post_date ≤ x → d ≤ x.
Proof.
  intros Hsorted%Sorted_StronglySorted Hfind x Hx Hpx; [|intros ???; lia].
  apply find_post_price_date_Some in Hfind as (before & after & -> & Hd & Hbefore).
  apply StronglySorted_app_1_r, StronglySorted_cons in Hsorted as [Hafter _].
  rewrite Forall_forall in Hafter, Hbefore.
  apply elem_of_app in Hx as [Hx|Hx]; [specialize (Hbefore x Hx); lia|].
  apply elem_of_cons in Hx as [->|Hx]; [lia|]. by apply Hafter.
Qed.

(** With no trading date between two targets, the later target is matched
    to the trading date of the earlier one. *)
Lemma horizon_date_shared (dates : list Z) (target target' matched : Z) :
  target ≤ target' →
  (∀ x, x ∈ dates → ¬ (target ≤ x < target')) →
  horizon_date dates target = Some matched →
  horizon_date dates target' = Some matched.
Proof.
  intros Hle Hgap (Hin & [Hlo Hhi] & Hleast)%horizon_date_Some.
  apply horizon_date_Some. pose proof (Hgap matched Hin).
  split; [done|]. split; [lia|]. intros x Hx Htx. apply Hleast; [done|lia].
Qed.

Section WithProvider.
Variable yf_history : str → Z → Z → result DataFrame.

Lemma records_for_performance_of (before after : list StockMention.t)
    (mention : StockMention.t) (stock_data : DataFrame) (performance : StockPerformance.t) :
  Forall (λ m, pair_key m ≠ pair_key mention) before →
  fetched yf_history mention = Some stock_data →
  performance ∈ records_for yf_history (pair_key mention) (before ++ mention :: after) →
  performance_of mention stock_data performance.
Proof.
  intros Hbefore Hfetched. unfold records_for.
  rewrite records_of_first_occurrence by done.
  destruct (process yf_history mention) as [p|] eqn:Hp; simpl; [|by intros ?%elem_of_nil].
  intros ->%list_elem_of_singleton.
  apply process_Some in Hp as (stock_data' & Hfetched' & Hof). congruence.
Qed.

(** X5. When no trading date of the series falls between the targets of
    two configured periods, from the earlier target on and before the later
    one, and the earlier period is resolved, the later period is resolved
    to the same trading date: it carries the same price and the same
    return. *)
Theorem periods_share_trading_day (before after : list StockMention.t)
    (mention : StockMention.t) (stock_data : DataFrame) (performance : StockPerformance.t)
    (days days' : Z) (return_attr price_attr return_attr' price_attr' : StockPerformance.attr) :
  Forall (λ m, pair_key m ≠ pair_key mention) before →
  fetched yf_history mention = Some stock_data →
  performance ∈ records_for yf_history (pair_key mention) (before ++ mention :: after) →
  (days, return_attr, price_attr) ∈ Config.TIME_PERIODS →
  (days', return_attr', price_attr') ∈ Config.TIME_PERIODS →
  days ≤ days' →
  (∀ x, x ∈ index_date stock_data →
     ¬ (datetime.date (StockMention.post_date mention) + days ≤ x <
        datetime.date (StockMention.post_date mention) + days')) →
  is_Some (StockPerformance.getattr performance price_attr) →
  StockPerformance.getattr performance price_attr' =
    StockPerformance.getattr performance price_attr ∧
  StockPerformance.getattr performance return_attr' =
    StockPerformance.getattr performance return_attr.
Proof.
  intros Hbefore Hfetched Hin Hperiod Hperiod' Hle Hgap Hset.
  destruct (records_for_performance_of _ _ _ _ _ Hbefore Hfetched Hin)
    as (_ & _ & _ & Hperiods).
  destruct (Hperiods _ _ _ Hperiod) as [Hprice Hreturn].
  destruct (Hperiods _ _ _ Hperiod') as [Hprice' Hreturn'].
  rewrite Hprice in Hset. rewrite Hprice, Hprice', Hreturn, Hreturn'.
  assert (Hshared : horizon_price stock_data
                      (datetime.date (StockMention.post_date mention) + days') =
                    horizon_price stock_data
                      (datetime.date (StockMention.post_date mention) + days)).
  { destruct (horizon_date (index_date stock_data)
                (datetime.date (StockMention.post_date mention) + days))
      as [matched|] eqn:Hmatched.
    - unfold horizon_price.
      rewrite Hmatched, (horizon_date_shared _ _ _ _ (Zplus_le_compat_l _ _ _ Hle) Hgap Hmatched).
      done.
    - apply horizon_price_None in Hmatched. rewrite Hmatched in Hset.
      by destruct Hset. }
  by rewrite Hshared.
Qed.

(** X6. When the series is in ascending date order, no trading date falls
    between the post's calendar date and the target of a configured period,
    and the period is resolved, the period is resolved to the anchor date:
    its price is [price_at_post], and for a finite [price_at_post] other
    than zero its return is a zero. *)
Theorem period_on_anchor_day (before after : list StockMention.t)
    (mention : StockMention.t) (stock_data : DataFrame) (performance : StockPerformance.t)
    (days : Z) (return_attr price_attr : StockPerformance.attr) :
  Forall (λ m, pair_key m ≠ pair_key mention) before →
  fetched yf_history mention = Some stock_data →
  performance ∈ records_for yf_history (pair_key mention) (before ++ mention :: after) →
  Sorted Z.le (index_date stock_data) →
  (days, return_attr, price_attr) ∈ Config.TIME_PERIODS →
  (∀ x, x ∈ index_date stock_data →
     ¬ (datetime.date (StockMention.post_date mention) ≤ x <
        datetime.date (StockMention.post_date mention) + days)) →
  is_Some (StockPerformance.getattr performance price_attr) →
  StockPerformance.getattr performance price_attr =
    Some (StockPerformance.price_at_post performance) ∧
  ∃ ret,
    StockPerformance.getattr performance return_attr = Some ret ∧
    (is_finite_nonzero (StockPerformance.price_at_post performance) = true →
     (ret =? 0)%float = true).
Proof.
  intros Hbefore Hfetched Hin Hsorted Hperiod Hgap Hset.
  destruct (records_for_performance_of _ _ _ _ _ Hbefore Hfetched Hin)
    as (_ & _ & (anchor & Hanchor & Hclose) & Hperiods).
  destruct (Hperiods _ _ _ Hperiod) as [Hprice Hreturn].
  rewrite Hprice in Hset. rewrite Hprice, Hreturn.
  set (post_date := datetime.date (StockMention.post_date mention)) in *.
  destruct (horizon_date (index_date stock_data) (post_date + days))
    as [matched|] eqn:Hmatched.
  2:{ apply horizon_price_None in Hmatched. rewrite Hmatched in Hset. by destruct Hset. }
  assert (matched = anchor) as ->.
  { pose proof (find_post_price_date_least _ _ _ Hsorted Hanchor) as Hleast.
    apply find_post_price_date_Some in Hanchor as (rows & rows' & Hdates & Hpost & _).
    assert (anchor ∈ index_date stock_data) as Hanchor_in.
    { rewrite Hdates, elem_of_app, elem_of_cons. auto. }
    apply horizon_date_Some in Hmatched as (Hm & [Hlo _] & Hmin).
    pose proof (Hgap anchor Hanchor_in). pose proof (Hleast matched Hm).
    pose proof (Hmin anchor Hanchor_in). pose proof (time_periods_days _ _ _ Hperiod). lia. }
  destruct (horizon_price_Some _ _ _ Hmatched) as (c & Hc & ->).
  assert (c = StockPerformance.price_at_post performance) as -> by congruence.
  split; [done|]. eexists. split; [done|].
  apply FloatFacts.percent_of_no_change.
Qed.

End WithProvider.

Section Scenarios.
Import Scenario.

Example weekend_output :
  calculate_performance weekend_provider [morning] = [weekend_record].
Proof. by vm_compute. Qed.

(** The spec's scenario: no trading between the 3-day and the 1-week
    target, and both are matched to the close of 12.0. *)
Lemma periods_share_trading_day_witness :
  (spec_record ∈ records_for spec_provider (pair_key morning) [morning] ∧
   (∀ x, x ∈ index_date spec_history → ¬ (day0 + 3 ≤ x < day0 + 7))) ∧
  StockPerformance.price_1w spec_record = StockPerformance.price_3d spec_record ∧
  StockPerformance.return_1w spec_record = StockPerformance.return_3d spec_record.
Proof.
  assert (Hin : spec_record ∈ records_for spec_provider (pair_key morning) [morning]).
  { vm_compute. apply list_elem_of_here. }
  assert (Hgap : ∀ x, x ∈ index_date spec_history → ¬ (day0 + 3 ≤ x < day0 + 7)).
  { intros x Hx. change (index_date spec_history)
      with [day0; day0 + 1; day0 + 7; day0 + 30] in Hx.
    rewrite !elem_of_cons, elem_of_nil in Hx. unfold day0 in *. lia. }
  assert (Hfetched : fetched spec_provider morning = Some spec_history).
  { vm_compute. reflexivity. }
  split; [split; [exact Hin|exact Hgap]|].
  refine (periods_share_trading_day spec_provider [] [] morning spec_history spec_record
            3 7 StockPerformance.a_return_3d StockPerformance.a_price_3d
            StockPerformance.a_return_1w StockPerformance.a_price_1w
            (Forall_nil_2 _) Hfetched Hin _ _ _ Hgap _).
  - unfold Config.TIME_PERIODS. rewrite !elem_of_cons. auto.
  - unfold Config.TIME_PERIODS. rewrite !elem_of_cons. auto.
  - lia.
  - by eexists.
Defined.

(** A post on a day without trading: the 1-day target is matched to the
    anchor date, and the 1-day return is zero. *)
Lemma period_on_anchor_day_witness :
  (weekend_record ∈ records_for weekend_provider (pair_key morning) [morning] ∧
   Sorted Z.le (index_date weekend_history) ∧
   (∀ x, x ∈ index_date weekend_history → ¬ (day0 ≤ x < day0 + 1))) ∧
  StockPerformance.price_1d weekend_record =
    Some (StockPerformance.price_at_post weekend_record) ∧
  ∃ ret,
    StockPerformance.return_1d weekend_record = Some ret ∧
    (is_finite_nonzero (StockPerformance.price_at_post weekend_record) = true →
     (ret =? 0)%float = true).
Proof.
  assert (Hin : weekend_record ∈ records_for weekend_provider (pair_key morning) [morning]).
  { vm_compute. apply list_elem_of_here. }
  assert (Hsorted : Sorted Z.le (index_date weekend_history)).
  { repeat constructor. vm_compute. discriminate. }
  assert (Hgap : ∀ x, x ∈ index_date weekend_history → ¬ (day0 ≤ x < day0 + 1)).
  { intros x Hx. change (index_date weekend_history) with [day0 + 2; day0 + 3] in Hx.
    rewrite !elem_of_cons, elem_of_nil in Hx. unfold day0 in *. lia. }
  assert (Hfetched : fetched weekend_provider morning = Some weekend_history).
  { vm_compute. reflexivity. }
  split; [split; [exact Hin|split; [exact Hsorted|exact Hgap]]|].
  refine (period_on_anchor_day weekend_provider [] [] morning weekend_history weekend_record
            1 StockPerformance.a_return_1d StockPerformance.a_price_1d
            (Forall_nil_2 _) Hfetched Hin Hsorted _ Hgap _).
  - unfold Config.TIME_PERIODS. rewrite !elem_of_cons. auto.
  - by eexists.
Defined.

End Scenarios.

End StockAnalyzerHorizons.

(** ** The ticker extractor *)

Module TickerExtractorProofs.
Import TickerExtractor ExtractorSpec.

Section WithTables.
Variable unicode_upper : N → str.
Variable unicode_isalnum : N → bool.

(** *** The pattern *)

Lemma match_group_Some (n : nat) (s group rest : str) :
  match_group unicode_isalnum n s = Some (group, rest) →
  s = group ++ rest ∧ (1 ≤ length group ≤ n)%nat ∧
  Forall (λ c, is_AZ c = true) group ∧ at_boundary unicode_isalnum rest = true.
Proof.
  revert s group rest.
  induction n as [|n IH]; intros [|c s] group rest; simpl; try done.
  destruct (is_AZ c) eqn:Hc; [|done].
  destruct (match_group unicode_isalnum n s) as [[group' rest']|] eqn:Hmore.
  - intros [= <- <-]. destruct (IH _ _ _ Hmore) as (-> & Hlen & Hletters & Hboundary).
    repeat split; simpl; [lia|lia|by constructor|done].
  - destruct (at_boundary unicode_isalnum s) eqn:Hboundary; [|done].
    intros [= <- <-]. repeat split; simpl; [lia|lia|by repeat constructor|done].
Qed.

Lemma match_group_is_Some (n : nat) (letters rest : str) :
  (1 ≤ length letters ≤ n)%nat →
  Forall (λ c, is_AZ c = true) letters →
  at_boundary unicode_isalnum rest = true →
  is_Some (match_group unicode_isalnum n (letters ++ rest)).
Proof.
  revert letters.
  induction n as [|n IH]; intros [|c letters] Hlen Hletters Hboundary;
    simpl in Hlen; try lia.
  apply Forall_cons in Hletters as [Hc Hletters]. simpl. rewrite Hc.
  destruct letters as [|c' letters].
  - simpl. destruct (match_group unicode_isalnum n rest) as [[group rest']|]; [by eexists|].
    rewrite Hboundary. by eexists.
  - destruct (IH (c' :: letters)) as [[group rest'] ->]; [simpl in *; lia|done|done|].
    by eexists.
Qed.

Lemma scan_has_symbol (skip : nat) (s : str) :
  scan unicode_isalnum skip s ≠ [] → has_symbol unicode_isalnum s.
Proof.
  assert (Hcons : ∀ c s', has_symbol unicode_isalnum s' →
                          has_symbol unicode_isalnum (c :: s')).
  { intros c s' (before & letters & rest & -> & Hrest).
    by exists (c :: before), letters, rest. }
  revert skip. induction s as [|c s IH]; intros skip; cbn [scan]; [done|].
  destruct skip as [|skip]; [|by intros ?%IH; apply Hcons].
  case_bool_decide as Hdollar; [|by intros ?%IH; apply Hcons]. subst c.
  destruct (match_group unicode_isalnum 5 s) as [[group rest]|] eqn:Hgroup;
    [|by intros ?%IH; apply Hcons].
  intros _. apply match_group_Some in Hgroup as (-> & Hlen & Hletters & Hboundary).
  by exists [], group, rest.
Qed.

Lemma has_symbol_scan (skip : nat) (before letters rest : str) :
  (skip ≤ length before)%nat →
  (1 ≤ length letters ≤ 5)%nat →
  Forall (λ c, is_AZ c = true) letters →
  at_boundary unicode_isalnum rest = true →
  scan unicode_isalnum skip (before ++ 36%N :: letters ++ rest) ≠ [].
Proof.
  intros Hskip Hlen Hletters Hboundary. revert skip Hskip.
  induction before as [|c before IH]; intros skip Hskip; cbn [app scan length] in *.
  - replace skip with 0%nat by lia. rewrite bool_decide_eq_true_2 by done.
    by destruct (match_group_is_Some 5 letters rest) as [[group rest'] ->].
  - destruct skip as [|skip]; [|apply IH; lia].
    case_bool_decide; [|apply IH; lia].
    destruct (match_group unicode_isalnum 5 _) as [[group rest']|]; [done|apply IH; lia].
Qed.

(** [findall] finds nothing exactly in the texts without a [$SYMBOL]-shaped
    token. *)
Lemma findall_nil (s : str) :
  findall unicode_isalnum s = [] ↔ ¬ has_symbol unicode_isalnum s.
Proof.
  split.
  - intros Hnil (before & letters & rest & -> & Hlen & Hletters & Hboundary).
    by apply (has_symbol_scan 0 before letters rest); [lia| | | |].
  - intros Hnot. destruct (findall unicode_isalnum s) as [|group groups] eqn:Hfind; [done|].
    exfalso. apply Hnot, (scan_has_symbol 0). unfold findall in Hfind. by rewrite Hfind.
Qed.

Section WithProvider.
Variable yf_info : str → result (option (gmap str info_value)).
Variable yf_history_period : str → str → result DataFrame.

Lemma has_required_true (info : gmap str info_value) :
  existsb (λ field, bool_decide (is_Some (info !! field))) required_fields = true ↔
  ∃ field, field ∈ required_fields ∧ is_Some (info !! field).
Proof.
  rewrite existsb_exists. split.
  - intros (field & Hfield%list_elem_of_In & Hsome%bool_decide_eq_true). by exists field.
  - intros (field & Hfield & Hsome). exists field.
    split; [by apply list_elem_of_In|by apply bool_decide_eq_true].
Qed.

(** C7, with the guard of the code.  [validate_ticker] always returns a
    boolean, whatever the provider does, and it returns [True] exactly when
    the metadata query raises no error and yields a dictionary of more than
    one entry that holds at least one of [symbol], [longName] and
    [regularMarketPrice], and the 5-day history query raises no error and
    yields at least one row. *)
Theorem validate_ticker_accepts (ticker : str) :
  ∃ calls accepted,
    validate_ticker yf_info yf_history_period ticker = (calls, Ok accepted) ∧
    (accepted = true ↔
     ∃ info hist,
       yf_info ticker = Ok (Some info) ∧
       1 < size info ∧
       (∃ field, field ∈ required_fields ∧ is_Some (info !! field)) ∧
       yf_history_period ticker (py "5d") = Ok hist ∧
       hist ≠ []).
Proof.
  unfold validate_ticker, validate_ticker_body, external.
  destruct (yf_info ticker) as [[info|]|e] eqn:Hinfo; cbn [mbind io_bind try_except].
  - pose proof (has_required_true info) as Hrequired.
    destruct (existsb _ required_fields) eqn:Hexists.
    all: case_bool_decide as Hsize; cbn [mret io_ret app try_except].
    all: try (eexists _, false; split; [done|]; split; [done|];
              intros (info' & hist & [= <-] & Hlt & _); lia).
    all: destruct (yf_history_period ticker (py "5d")) as [hist|e] eqn:Hhist;
           cbn [mret io_ret app try_except andb].
    + eexists _, _. split; [done|].
      rewrite negb_true_iff, bool_decide_eq_false. split.
      * intros Hne. exists info, hist. split; [done|]. split; [lia|].
        split; [by apply Hrequired|done].
      * by intros (info' & hist' & _ & _ & _ & [= <-] & Hne).
    + eexists _, false. split; [done|]. split; [done|].
      intros (info' & hist & _ & _ & _ & [=] & _).
    + eexists _, false. split; [done|]. split; [done|].
      intros (info' & hist' & [= <-] & _ & Hfield%Hrequired & _). done.
    + eexists _, false. split; [done|]. split; [done|].
      intros (info' & hist & _ & _ & _ & [=] & _).
  - eexists _, false. split; [done|]. split; [done|].
    intros (info' & hist & [=] & _).
  - eexists _, false. split; [done|]. split; [done|].
    intros (info' & hist & [=] & _).
Qed.

(** C8. A text that, once upper-cased, holds no [$SYMBOL]-shaped token
    yields the empty list, and no call to the provider is made. *)
Theorem no_symbol_no_calls (text : str) :
  (¬ has_symbol unicode_isalnum (upper unicode_upper text)) →
  extract_tickers_from_text unicode_upper unicode_isalnum yf_info yf_history_period text =
  ([], Ok []).
Proof.
  intros Hnone%findall_nil. unfold extract_tickers_from_text. by rewrite Hnone.
Qed.

End WithProvider.
End WithTables.

(** *** The properties on concrete inputs *)

Section Scenarios.
Import Scenario.

Example findall_tickers :
  findall plain_isalnum (upper plain_upper (py "buy $aapl and $TSLA1 $gme. not $ABCDEF")) =
  [py "AAPL"; py "GME"].
Proof. by vm_compute. Qed.

Example findall_plain_title :
  findall plain_isalnum (upper plain_upper plain_title) = [].
Proof. by vm_compute. Qed.

(** C7 as stated fails: the metadata query and the history query raise no
    error, the metadata holds the symbol field, the 5-day history has a
    row, and the ticker is rejected, because the metadata has one entry
    only; the history is not even requested. *)
Lemma symbol_only_counterexample :
  symbol_only_info (py "XYZ") = Ok (Some {[ py "symbol" := InfoStr (py "XYZ") ]}) ∧
  py "symbol" ∈ required_fields ∧
  ({[ py "symbol" := InfoStr (py "XYZ") ]} : gmap str info_value) !! py "symbol" =
    Some (InfoStr (py "XYZ")) ∧
  one_row_history (py "XYZ") (py "5d") = Ok [(day0, 10%float)] ∧
  validate_ticker symbol_only_info one_row_history (py "XYZ") =
    ([InfoCall (py "XYZ")], Ok false).
Proof.
  split; [done|]. split; [apply list_elem_of_here|].
  split; [apply lookup_singleton_eq|]. split; [done|]. by vm_compute.
Qed.

Lemma no_symbol_no_calls_witness :
  (¬ has_symbol plain_isalnum (upper plain_upper plain_title)) ∧
  extract_tickers_from_text plain_upper plain_isalnum symbol_only_info one_row_history
    plain_title = ([], Ok []).
Proof.
  assert (Hnone : ¬ has_symbol plain_isalnum (upper plain_upper plain_title)).
  { apply findall_nil. vm_compute. reflexivity. }
  split; [exact Hnone|].
  exact (no_symbol_no_calls plain_upper plain_isalnum symbol_only_info one_row_history
           plain_title Hnone).
Defined.

End Scenarios.

End TickerExtractorProofs.

(** ** The ticker extractor: candidates and validation calls *)

Module TickerExtractorCalls.
Import TickerExtractor ExtractorSpec TickerExtractorProofs.

Section WithTables.
Variable unicode_upper : N → str.
Variable unicode_isalnum : N → bool.

Lemma scan_token_in (skip : nat) (s group : str) :
  group ∈ scan unicode_isalnum skip s → token_in unicode_isalnum s group.
Proof.
  assert (Hcons : ∀ c s', token_in unicode_isalnum s' group →
                          token_in unicode_isalnum (c :: s') group).
  { intros c s' (before & rest & -> & Hrest). by exists (c :: before), rest. }
  revert skip. induction s as [|c s IH]; intros skip; cbn [scan]; [by intros ?%elem_of_nil|].
  destruct skip as [|skip]; [|by intros ?%IH; apply Hcons].
  case_bool_decide as Hdollar; [|by intros ?%IH; apply Hcons]. subst c.
  destruct (match_group unicode_isalnum 5 s) as [[group' rest]|] eqn:Hgroup;
    [|by intros ?%IH; apply Hcons].
  intros [->|Hin]%elem_of_cons; [|by apply Hcons, (IH (length group'))].
  apply match_group_Some in Hgroup as (-> & Hlen & Hletters & Hboundary).
  by exists [], rest.
Qed.

(** X7. Every candidate that [findall] returns stands in the text as a
    token: it follows a dollar sign, consists of one to five letters A-Z,
    and is followed by a word boundary, so that a longer run of letters is
    never cut to its first five. *)
Theorem findall_tokens (s : str) :
  Forall (token_in unicode_isalnum s) (findall unicode_isalnum s).
Proof. apply Forall_forall. intros group. apply scan_token_in. Qed.

Section WithProvider.
Variable yf_info : str → result (option (gmap str info_value)).
Variable yf_history_period : str → str → result DataFrame.

Lemma validate_ticker_unfold (ticker : str) :
  validate_ticker yf_info yf_history_period ticker =
  match yf_info ticker with
  | Ok (Some info) =>
      if bool_decide (size info ≤ 1) then ([InfoCall ticker], Ok false)
      else
        ([InfoCall ticker; HistoryCall ticker (py "5d")],
         Ok match yf_history_period ticker (py "5d") with
            | Ok hist =>
                existsb (λ field, bool_decide (is_Some (info !! field))) required_fields &&
                negb (bool_decide (hist = []))
            | Raise _ => false
            end)
  | _ => ([InfoCall ticker], Ok false)
  end.
Proof.
  unfold validate_ticker, validate_ticker_body, external.
  destruct (yf_info ticker) as [[info|]|e]; cbn [mbind io_bind try_except]; try done.
  case_bool_decide; [done|].
  by destruct (yf_history_period ticker (py "5d")).
Qed.

Lemma validate_ticker_accepted (ticker : str) :
  validate_ticker yf_info yf_history_period ticker =
  ((validate_ticker yf_info yf_history_period ticker).1,
   Ok (accepted yf_info yf_history_period ticker)).
Proof.
  unfold accepted. rewrite validate_ticker_unfold.
  destruct (yf_info ticker) as [[info|]|e]; try done. by case_bool_decide.
Qed.

Lemma validate_ticker_info_calls (ticker : str) :
  info_calls (validate_ticker yf_info yf_history_period ticker).1 = [ticker].
Proof.
  rewrite validate_ticker_unfold.
  destruct (yf_info ticker) as [[info|]|e]; try done. by case_bool_decide.
Qed.

(** X8. [validate_ticker] asks for the metadata first and for nothing
    else but the 5-day history of the same ticker, and it asks for the
    history exactly when the metadata came without an error and with more
    than one entry. *)
Theorem validate_ticker_calls (ticker : str) :
  let calls := (validate_ticker yf_info yf_history_period ticker).1 in
  (calls = [InfoCall ticker] ∨
   calls = [InfoCall ticker; HistoryCall ticker (py "5d")]) ∧
  (HistoryCall ticker (py "5d") ∈ calls ↔
   ∃ info, yf_info ticker = Ok (Some info) ∧ 1 < size info).
Proof.
  cbn zeta. rewrite validate_ticker_unfold.
  destruct (yf_info ticker) as [[info|]|e]; [case_bool_decide as Hsize|..]; cbn [fst].
  all: split; [auto|].
  all: rewrite ?list_elem_of_singleton, ?elem_of_cons, ?elem_of_nil.
  - split; [intros [=]|]. intros (info' & [= <-] & ?). lia.
  - split; [|auto]. intros _. exists info. split; [done|lia].
  - split; [intros [=]|]. by intros (info' & [=] & ?).
  - split; [intros [=]|]. by intros (info' & [=] & ?).
Qed.

Lemma validate_loop_unfold (unique_tickers : list str) (validated_tickers : gset str) :
  validate_loop yf_info yf_history_period unique_tickers validated_tickers =
  (unique_tickers ≫= (λ ticker, (validate_ticker yf_info yf_history_period ticker).1),
   Ok (validated_tickers ∪
       list_to_set (filter (λ ticker, accepted yf_info yf_history_period ticker = true)
                      unique_tickers))).
Proof.
  revert validated_tickers.
  induction unique_tickers as [|ticker rest IH]; intros validated_tickers.
  { simpl. by rewrite (right_id_L ∅ (∪)). }
  cbn [validate_loop]. rewrite (validate_ticker_accepted ticker).
  cbn [mbind io_bind]. rewrite IH. rewrite bind_cons. f_equal. f_equal.
  destruct (accepted yf_info yf_history_period ticker) eqn:Haccepted.
  - rewrite filter_cons_True by done. by rewrite list_to_set_cons, (assoc_L (∪)).
  - by rewrite filter_cons_False by (by rewrite Haccepted).
Qed.

Lemma extract_tickers_unfold (text : str) :
  let candidates : gset str := list_to_set (findall unicode_isalnum (upper unicode_upper text)) in
  extract_tickers_from_text unicode_upper unicode_isalnum yf_info yf_history_period text =
  (elements candidates ≫= (λ ticker, (validate_ticker yf_info yf_history_period ticker).1),
   Ok (elements
         (list_to_set (filter (λ ticker, accepted yf_info yf_history_period ticker = true)
                         (elements candidates)) : gset str))).
Proof.
  cbn zeta. unfold extract_tickers_from_text.
  destruct (findall unicode_isalnum (upper unicode_upper text)) as [|group groups] eqn:Hfind.
  { simpl. by rewrite elements_empty. }
  rewrite validate_loop_unfold. cbn [mbind io_bind mret io_ret].
  by rewrite app_nil_r, (left_id_L ∅ (∪)).
Qed.


(** X10. [extract_tickers_from_text] requests the metadata of every
    distinct candidate of the upper-cased text exactly once, and of no
    other ticker. *)
Theorem extract_tickers_validates_once (text : str) :
  let calls :=
    (extract_tickers_from_text unicode_upper unicode_isalnum yf_info yf_history_period
       text).1 in
  NoDup (info_calls calls) ∧
  ∀ ticker,
    ticker ∈ info_calls calls ↔
    ticker ∈ findall unicode_isalnum (upper unicode_upper text).
Proof.
  cbn zeta. rewrite extract_tickers_unfold. cbn [fst].
  set (candidates := elements _).
  assert (Hcalls : info_calls
            (candidates ≫= (λ ticker, (validate_ticker yf_info yf_history_period ticker).1)) =
          candidates).
  { induction candidates as [|ticker rest IH]; [done|].
    rewrite bind_cons. unfold info_calls in *.
    rewrite omap_app, IH. fold (info_calls (validate_ticker yf_info yf_history_period ticker).1).
    by rewrite validate_ticker_info_calls. }
  rewrite Hcalls. unfold candidates. split; [apply NoDup_elements|].
  intros ticker. by rewrite elem_of_elements, elem_of_list_to_set.
Qed.

End WithProvider.
End WithTables.

End TickerExtractorCalls.

(** ** The mention source *)

Module RedditScraperProofs.
Import RedditScraper.

(** C9. With a sort mode other than [hot], [new], [top] and [rising],
    [fetch_posts] raises the error at once: no listing is requested from
    the forum, no text is analysed, no ticker is validated, and no list of
    mentions is returned. *)
Theorem invalid_sort_raises
    (unicode_upper : N → str) (unicode_isalnum : N → bool)
    (yf_info : str → result (option (gmap str info_value)))
    (yf_history_period : str → str → result DataFrame)
    (subreddit_hot subreddit_new subreddit_rising : Z → result (list Post.t))
    (subreddit_top : Z → str → result (list Post.t))
    (utc_offset : Z → Z)
    (limit : Z) (use_title_only : bool) (sort_by time_filter : str) :
  sort_by ∉ [py "hot"; py "new"; py "top"; py "rising"] →
  fetch_posts unicode_upper unicode_isalnum yf_info yf_history_period
    subreddit_hot subreddit_new subreddit_rising subreddit_top utc_offset
    limit use_title_only sort_by time_filter =
  ([], Raise (ValueError (py "Invalid sort option: " ++ sort_by))).
Proof.
  rewrite !not_elem_of_cons. intros (Hhot & Hnew & Htop & Hrising & _).
  unfold fetch_posts. by rewrite !bool_decide_eq_false_2 by done.
Qed.

Lemma invalid_sort_raises_witness :
  (py "best" ∉ [py "hot"; py "new"; py "top"; py "rising"]) ∧
  fetch_posts Scenario.plain_upper Scenario.plain_isalnum
    Scenario.symbol_only_info Scenario.one_row_history
    Scenario.no_posts Scenario.no_posts Scenario.no_posts Scenario.no_top_posts Scenario.utc
    100 true (py "best") (py "month") =
  ([], Raise (ValueError (py "Invalid sort option: best"))).
Proof.
  assert (Hsort : py "best" ∉ [py "hot"; py "new"; py "top"; py "rising"]).
  { rewrite !not_elem_of_cons. repeat split; [discriminate..|apply not_elem_of_nil]. }
  split; [exact Hsort|].
  exact (invalid_sort_raises Scenario.plain_upper Scenario.plain_isalnum
           Scenario.symbol_only_info Scenario.one_row_history
           Scenario.no_posts Scenario.no_posts Scenario.no_posts Scenario.no_top_posts
           Scenario.utc 100 true (py "best") (py "month") Hsort).
Defined.

End RedditScraperProofs.

(** ** The mention source: the mentions of a listing *)

Module RedditScraperMentions.
Import RedditScraper ScraperSpec ExtractorSpec TickerExtractorCalls.
Local Open Scope Z_scope.

Section WithCollaborators.
Variable unicode_upper : N → str.
Variable unicode_isalnum : N → bool.
Variable yf_info : str → result (option (gmap str info_value)).
Variable yf_history_period : str → str → result DataFrame.
Variable subreddit_hot subreddit_new subreddit_rising : Z → result (list Post.t).
Variable subreddit_top : Z → str → result (list Post.t).
Variable utc_offset : Z → Z.

Local Abbreviation extract :=
  (extract_tickers_from_text unicode_upper unicode_isalnum yf_info yf_history_period).
Local Abbreviation tickers_of :=
  (extracted unicode_upper unicode_isalnum yf_info yf_history_period).
Local Abbreviation fetch :=
  (fetch_posts unicode_upper unicode_isalnum yf_info yf_history_period
     subreddit_hot subreddit_new subreddit_rising subreddit_top utc_offset).

Lemma extract_extracted (text : str) :
  extract text = ((extract text).1, Ok (tickers_of text)).
Proof.
  unfold extracted, RedditScraper.extract_tickers_from_text.
  by rewrite (extract_tickers_unfold unicode_upper unicode_isalnum yf_info yf_history_period).
Qed.

Lemma extracted_NoDup (text : str) : NoDup (tickers_of text).
Proof.
  unfold extracted, RedditScraper.extract_tickers_from_text.
  rewrite (extract_tickers_unfold unicode_upper unicode_isalnum yf_info yf_history_period).
  apply NoDup_elements.
Qed.

(** The loop over the posts appends, post by post, one mention per ticker
    extracted from the post's text, and makes the calls of the extractions. *)
Lemma posts_loop_unfold (use_title_only : bool) (posts : list Post.t)
    (mentions : list StockMention.t) :
  posts_loop unicode_upper unicode_isalnum yf_info yf_history_period utc_offset
    use_title_only posts mentions =
  (posts ≫= (λ post, (extract (text_to_analyze use_title_only post)).1),
   Ok (mentions ++
       posts ≫= (λ post, post_mentions utc_offset post
                           (tickers_of (text_to_analyze use_title_only post))))).
Proof.
  revert mentions. induction posts as [|post posts IH]; intros mentions.
  { simpl. by rewrite app_nil_r. }
  cbn [posts_loop].
  change (if use_title_only then Post.title post
          else Post.title post ++ py " " ++ Post.selftext post)
    with (text_to_analyze use_title_only post).
  rewrite (extract_extracted (text_to_analyze use_title_only post)).
  cbn [mbind io_bind]. rewrite !bind_cons.
  destruct (tickers_of (text_to_analyze use_title_only post)) as [|ticker tickers] eqn:Htickers.
  - rewrite IH. by cbn.
  - rewrite IH. by rewrite <-(assoc_L (++)).
Qed.

Lemma fetch_posts_unfold (limit : Z) (use_title_only : bool) (sort_by time_filter : str) :
  fetch limit use_title_only sort_by time_filter =
  match listing subreddit_hot subreddit_new subreddit_rising subreddit_top
          sort_by limit time_filter with
  | Some (Ok posts) =>
      (ListingCall sort_by limit ::
         posts ≫= (λ post, (extract (text_to_analyze use_title_only post)).1),
       Ok (posts ≫= (λ post, post_mentions utc_offset post
                               (tickers_of (text_to_analyze use_title_only post)))))
  | Some (Raise e) => ([ListingCall sort_by limit], Raise e)
  | None => ([], Raise (ValueError (py "Invalid sort option: " ++ sort_by)))
  end.
Proof.
  unfold fetch_posts, listing, external, raise.
  repeat case_bool_decide; cbn [mbind io_bind];
    repeat match goal with
           | |- context [match ?r with Ok _ => _ | Raise _ => _ end] =>
               destruct r as [posts|e] eqn:?
           end;
    rewrite ?posts_loop_unfold; try done.
Qed.



(** X13. When the posts of the listing have distinct ids, no two of the
    returned mentions share ticker and post id. *)
Theorem fetch_posts_keys_unique (limit : Z) (use_title_only : bool)
    (sort_by time_filter : str)
    (posts : list Post.t) (calls : list call) (mentions : list StockMention.t) :
  listing subreddit_hot subreddit_new subreddit_rising subreddit_top
    sort_by limit time_filter = Some (Ok posts) →
  NoDup (Post.id <$> posts) →
  fetch limit use_title_only sort_by time_filter = (calls, Ok mentions) →
  NoDup (mention_key <$> mentions).
Proof.
  intros Hlisting Hids. rewrite fetch_posts_unfold, Hlisting. intros [= _ <-].
  clear Hlisting. induction posts as [|post posts IH]; [constructor|].
  rewrite fmap_cons in Hids. apply NoDup_cons in Hids as [Hfresh Hids].
  rewrite bind_cons, fmap_app. apply NoDup_app. split; [|split; [|by apply IH]].
  - unfold post_mentions. rewrite <-list_fmap_compose.
    apply (NoDup_fmap_2_strong _); [|apply extracted_NoDup].
    by intros ticker ticker' _ _ [= ->].
  - intros key (m & -> & (ticker & -> & _)%list_elem_of_fmap)%list_elem_of_fmap.
    intros (m' & Hkey & (post' & (ticker' & -> & _)%list_elem_of_fmap & Hpost')%list_elem_of_bind)%list_elem_of_fmap.
    apply Hfresh. injection Hkey as _ ->. by apply list_elem_of_fmap_2.
Qed.

End WithCollaborators.

Lemma bind_same_but_selftext {A : Type} (f : Post.t → list A) (posts posts' : list Post.t) :
  (∀ post body, f post = f (Post.mk (Post.id post) (Post.title post) body
                              (Post.created_utc post) (Post.score post)
                              (Post.permalink post) (Post.author post))) →
  Forall2 (λ post post',
             post' = Post.mk (Post.id post) (Post.title post) (Post.selftext post')
                       (Post.created_utc post) (Post.score post) (Post.permalink post)
                       (Post.author post))
    posts posts' →
  posts ≫= f = posts' ≫= f.
Proof.
  intros Hf. induction 1 as [|post post' posts posts' Hpost _ IH]; [done|].
  rewrite !bind_cons, IH. f_equal. rewrite Hpost. apply Hf.
Qed.

(** X14. In title-only mode the body of a post is never read: listings
    that differ in the bodies of their posts only give the same calls and
    the same mentions. *)
Theorem title_only_ignores_selftext
    (unicode_upper : N → str) (unicode_isalnum : N → bool)
    (yf_info : str → result (option (gmap str info_value)))
    (yf_history_period : str → str → result DataFrame)
    (subreddit_hot subreddit_new subreddit_rising : Z → result (list Post.t))
    (subreddit_top : Z → str → result (list Post.t))
    (subreddit_hot' subreddit_new' subreddit_rising' : Z → result (list Post.t))
    (subreddit_top' : Z → str → result (list Post.t))
    (utc_offset : Z → Z)
    (limit : Z) (sort_by time_filter : str) (posts posts' : list Post.t) :
  listing subreddit_hot subreddit_new subreddit_rising subreddit_top
    sort_by limit time_filter = Some (Ok posts) →
  listing subreddit_hot' subreddit_new' subreddit_rising' subreddit_top'
    sort_by limit time_filter = Some (Ok posts') →
  Forall2 (λ post post',
             post' = Post.mk (Post.id post) (Post.title post) (Post.selftext post')
                       (Post.created_utc post) (Post.score post) (Post.permalink post)
                       (Post.author post))
    posts posts' →
  fetch_posts unicode_upper unicode_isalnum yf_info yf_history_period
    subreddit_hot subreddit_new subreddit_rising subreddit_top utc_offset
    limit true sort_by time_filter =
  fetch_posts unicode_upper unicode_isalnum yf_info yf_history_period
    subreddit_hot' subreddit_new' subreddit_rising' subreddit_top' utc_offset
    limit true sort_by time_filter.
Proof.
  intros Hlisting Hlisting' Hposts. rewrite !fetch_posts_unfold, Hlisting, Hlisting'.
  f_equal; [f_equal|f_equal]; by apply bind_same_but_selftext.
Qed.

Section Scenarios.
Import Scenario.

Local Abbreviation hot_fetch use_title_only :=
  (fetch_posts plain_upper plain_isalnum named_info one_row_history
     hot_posts no_posts no_posts no_top_posts utc 100 use_title_only (py "hot") (py "month")).

Example hot_fetch_mentions : (hot_fetch false).2 = Ok hot_mentions.
Proof. by vm_compute. Qed.

Example hot_fetch_title_only : (hot_fetch true).2 = Ok [post_one_mention "XYZ"].
Proof. by vm_compute. Qed.



Lemma fetch_posts_keys_unique_witness :
  (listing hot_posts no_posts no_posts no_top_posts (py "hot") 100 (py "month") =
     Some (Ok [post_one; post_two]) ∧
   NoDup (Post.id <$> [post_one; post_two]) ∧
   hot_fetch false = ((hot_fetch false).1, Ok hot_mentions)) ∧
  NoDup (mention_key <$> hot_mentions).
Proof.
  assert (Hlisting : listing hot_posts no_posts no_posts no_top_posts
                       (py "hot") 100 (py "month") = Some (Ok [post_one; post_two])).
  { reflexivity. }
  assert (Hids : NoDup (Post.id <$> [post_one; post_two])).
  { apply (bool_decide_unpack _). vm_compute. reflexivity. }
  assert (Hfetch : hot_fetch false = ((hot_fetch false).1, Ok hot_mentions)).
  { vm_compute. reflexivity. }
  split; [split; [exact Hlisting|split; [exact Hids|exact Hfetch]]|].
  exact (fetch_posts_keys_unique plain_upper plain_isalnum named_info one_row_history
           hot_posts no_posts no_posts no_top_posts utc 100 false (py "hot") (py "month")
           [post_one; post_two] (hot_fetch false).1 hot_mentions Hlisting Hids Hfetch).
Defined.

Lemma title_only_ignores_selftext_witness :
  (listing hot_posts no_posts no_posts no_top_posts (py "hot") 100 (py "month") =
     Some (Ok [post_one; post_two]) ∧
   bare_posts 100 = Ok [Post.mk (py "p1") (py "$xyz to the moon") (py "")
                          1704187800 42 (py "/r/pennystocks/comments/p1")
                          (Some (py "alice")); post_two]) ∧
  hot_fetch true =
  fetch_posts plain_upper plain_isalnum named_info one_row_history
    bare_posts no_posts no_posts no_top_posts utc 100 true (py "hot") (py "month").
Proof.
  assert (Hlisting : listing hot_posts no_posts no_posts no_top_posts
                       (py "hot") 100 (py "month") = Some (Ok [post_one; post_two])).
  { reflexivity. }
  split; [split; [exact Hlisting|reflexivity]|].
  refine (title_only_ignores_selftext plain_upper plain_isalnum named_info one_row_history
            hot_posts no_posts no_posts no_top_posts
            bare_posts no_posts no_posts no_top_posts utc 100 (py "hot") (py "month")
            [post_one; post_two] _ Hlisting eq_refl _).
  repeat constructor.
Defined.

End Scenarios.

End RedditScraperMentions.

(** ** The report *)

Module VisualizerProofs.
Import Visualizer Scenario.

Lemma periods_loop_other (data : list PerformanceRow.t)
    (ps : list (str * (PerformanceRow.t → option float)))
    (time_periods : gmap str period_stats) (period : str) :
  period ∉ ps.*1 →
  periods_loop data ps time_periods !! period = time_periods !! period.
Proof.
  revert time_periods.
  induction ps as [|[period' return_col] ps IH]; intros time_periods Hnot; [done|].
  rewrite fmap_cons, not_elem_of_cons in Hnot. destruct Hnot as [Hne Hnot]. simpl in Hne.
  simpl. case_bool_decide; rewrite IH by done; [|done].
  by rewrite lookup_insert_ne.
Qed.

Lemma periods_loop_lookup (data : list PerformanceRow.t)
    (ps : list (str * (PerformanceRow.t → option float)))
    (time_periods : gmap str period_stats)
    (period : str) (return_col : PerformanceRow.t → option float) :
  NoDup ps.*1 →
  (period, return_col) ∈ ps →
  periods_loop data ps time_periods !! period =
  match dropna (return_col <$> data) with
  | [] => time_periods !! period
  | valid_data => Some (stats_of valid_data)
  end.
Proof.
  revert time_periods.
  induction ps as [|[period' return_col'] ps IH]; intros time_periods Hnodup Hin.
  { by apply elem_of_nil in Hin. }
  rewrite fmap_cons in Hnodup. apply NoDup_cons in Hnodup as [Hfresh Hnodup].
  apply elem_of_cons in Hin as [[= <- <-]|Hin]; simpl.
  - case_bool_decide as Hlen; rewrite periods_loop_other by done.
    + rewrite lookup_insert_eq. destruct (dropna _); [simpl in Hlen; lia|done].
    + destruct (dropna _); [done|]. simpl in Hlen. lia.
  - assert (period ≠ period') as Hne.
    { intros ->. apply Hfresh. apply list_elem_of_fmap. by exists (period', return_col). }
    case_bool_decide; rewrite IH by done; [|done].
    by rewrite lookup_insert_ne.
Qed.

Lemma periods_NoDup : NoDup periods.*1.
Proof. by apply (bool_decide_unpack _). Qed.

(** C6, with the win rate the code computes.  For a period whose non-null
    returns are exactly [5, -5, 15, -15, 25], [analyze_profitability]
    reports for it [returns_over_10pct = 2], [returns_under_minus10pct = 1],
    [mean_return = 5.0] and, three of the five returns being strictly
    greater than 0, [win_rate = 60.0]. *)
Theorem report_of_five_returns (data : list PerformanceRow.t)
    (period : str) (return_col : PerformanceRow.t → option float) :
  (period, return_col) ∈ periods →
  dropna (return_col <$> data) = [5; -5; 15; -15; 25]%float →
  ∃ time_periods stats,
    analyze_profitability data = Results (length data) time_periods ∧
    time_periods !! period = Some stats ∧
    count stats = 5%nat ∧
    positive_returns stats = 3%nat ∧
    win_rate stats = 60%float ∧
    returns_over_10pct stats = 2%nat ∧
    returns_under_minus10pct stats = 1%nat ∧
    mean_return stats = 5%float.
Proof.
  intros Hperiod Hvalid.
  exists (periods_loop data periods ∅), (stats_of [5; -5; 15; -15; 25]%float).
  split.
  { destruct data; [discriminate Hvalid|done]. }
  split.
  { rewrite (periods_loop_lookup data periods ∅ period return_col periods_NoDup Hperiod).
    by rewrite Hvalid. }
  by vm_compute.
Qed.

(** C6 as stated fails: on these rows the win rate of the one-day period
    is 60, not 40. *)
Lemma win_rate_counterexample :
  dropna (PerformanceRow.return_1d <$> five_rows) = [5; -5; 15; -15; 25]%float ∧
  ∃ time_periods stats,
    analyze_profitability five_rows = Results 5 time_periods ∧
    time_periods !! py "1d" = Some stats ∧
    win_rate stats = 60%float ∧
    (win_rate stats =? 40)%float = false.
Proof.
  split; [by vm_compute|].
  exists (periods_loop five_rows periods ∅), (stats_of [5; -5; 15; -15; 25]%float).
  split; [done|]. split; [by vm_compute|]. split; by vm_compute.
Qed.

Lemma report_of_five_returns_witness :
  ((py "1d", PerformanceRow.return_1d) ∈ periods ∧
   dropna (PerformanceRow.return_1d <$> five_rows) = [5; -5; 15; -15; 25]%float) ∧
  ∃ time_periods stats,
    analyze_profitability five_rows = Results (length five_rows) time_periods ∧
    time_periods !! py "1d" = Some stats ∧
    count stats = 5%nat ∧
    positive_returns stats = 3%nat ∧
    win_rate stats = 60%float ∧
    returns_over_10pct stats = 2%nat ∧
    returns_under_minus10pct stats = 1%nat ∧
    mean_return stats = 5%float.
Proof.
  assert (Hperiod : (py "1d", PerformanceRow.return_1d) ∈ periods).
  { apply list_elem_of_here. }
  assert (Hvalid : dropna (PerformanceRow.return_1d <$> five_rows) =
                   [5; -5; 15; -15; 25]%float).
  { vm_compute. reflexivity. }
  split; [split; [exact Hperiod|exact Hvalid]|].
  exact (report_of_five_returns five_rows (py "1d") PerformanceRow.return_1d Hperiod Hvalid).
Defined.

End VisualizerProofs.
(** ** The database *)

Module DatabaseProofs.
Import Database DatabaseSpec.
Local Open Scope Z_scope.

Lemma filter_all {A : Type} (P : A → Prop) `{∀ x, Decision (P x)} (l : list A) :
  Forall P l → filter P l = l.
Proof.
  induction 1 as [|x l Hx _ IH]; [done|]. by rewrite filter_cons_True, IH.
Qed.

Lemma filter_none {A : Type} (P : A → Prop) `{∀ x, Decision (P x)} (l : list A) :
  Forall (λ x, ¬ P x) l → filter P l = [].
Proof.
  induction 1 as [|x l Hx _ IH]; [done|]. by rewrite filter_cons_False.
Qed.

(** *** [INSERT OR REPLACE], row by row *)

Section Upsert.
Context {Row Key Item : Type} `{EqDecision Key}.
Variable key : Row → Key.
Variable make : Item → Z → Row.
Variable key_of : Item → Key.
Hypothesis key_make : ∀ item id, key (make item id) = key_of item.

Lemma upsert_all_app (items items' : list Item) (t : table Row) :
  upsert_all key make (items ++ items') t =
  upsert_all key make items' (upsert_all key make items t).
Proof. apply foldl_app. Qed.

Lemma insert_or_replace_NoDup (item : Item) (t : table Row) :
  NoDup (key <$> rows t) → NoDup (key <$> rows (insert_or_replace key (make item) t)).
Proof.
  intros Hnodup. unfold insert_or_replace. cbn [rows].
  rewrite fmap_app. apply NoDup_app. split; [|split].
  - eapply sublist_NoDup; [done|]. apply fmap_sublist, sublist_filter.
  - intros k (r & -> & [Hne _]%list_elem_of_filter)%list_elem_of_fmap.
    intros Heq%list_elem_of_singleton. by apply Hne.
  - apply NoDup_singleton.
Qed.

Lemma upsert_all_NoDup (items : list Item) (t : table Row) :
  NoDup (key <$> rows t) → NoDup (key <$> rows (upsert_all key make items t)).
Proof.
  revert t. induction items as [|item items IH]; intros t Hnodup; [done|].
  apply IH, insert_or_replace_NoDup, Hnodup.
Qed.

Lemma insert_or_replace_same (item : Item) (t : table Row) :
  filter (λ r, key r = key_of item) (rows (insert_or_replace key (make item) t)) =
  [make item (sequence t + 1)].
Proof.
  unfold insert_or_replace. cbn [rows]. rewrite filter_app, key_make.
  rewrite list_filter_filter, filter_cons_True, filter_nil by apply key_make.
  rewrite filter_none; [done|]. apply Forall_forall. intros r _ [? ?]. done.
Qed.

Lemma insert_or_replace_other (item : Item) (k : Key) (t : table Row) :
  key_of item ≠ k →
  filter (λ r, key r = k) (rows (insert_or_replace key (make item) t)) =
  filter (λ r, key r = k) (rows t).
Proof.
  intros Hne. unfold insert_or_replace. cbn [rows]. rewrite filter_app, key_make.
  rewrite filter_cons_False, filter_nil, app_nil_r by (rewrite key_make; done).
  rewrite list_filter_filter. apply list_filter_iff. intros r.
  split; [tauto|]. intros Heq. split; [done|]. congruence.
Qed.

Lemma upsert_all_other (items : list Item) (k : Key) (t : table Row) :
  Forall (λ item, key_of item ≠ k) items →
  filter (λ r, key r = k) (rows (upsert_all key make items t)) =
  filter (λ r, key r = k) (rows t).
Proof.
  intros Hother. revert t.
  induction Hother as [|item items Hne _ IH]; intros t; [done|].
  unfold upsert_all in *. cbn [foldl]. by rewrite IH, insert_or_replace_other.
Qed.

Lemma upsert_all_last (before after : list Item) (item : Item) (t : table Row) :
  Forall (λ item', key_of item' ≠ key_of item) after →
  ∃ id,
    filter (λ r, key r = key_of item)
      (rows (upsert_all key make (before ++ item :: after) t)) =
    [make item id].
Proof.
  intros Hafter. exists (sequence (upsert_all key make before t) + 1).
  rewrite upsert_all_app. change (upsert_all key make (item :: after) ?t)
    with (upsert_all key make after (insert_or_replace key (make item) t)).
  by rewrite upsert_all_other, insert_or_replace_same.
Qed.

(** Items with distinct keys that the table does not hold are appended,
    each under the next id. *)
Lemma upsert_all_fresh (items : list Item) (t : table Row) :
  NoDup (key_of <$> items) →
  Forall (λ item, key_of item ∉ key <$> rows t) items →
  upsert_all key make items t =
  mk_table (rows t ++ imap (λ i item, make item (sequence t + 1 + Z.of_nat i)) items)
    (sequence t + Z.of_nat (length items)).
Proof.
  revert t. induction items as [|item items IH]; intros [rs seq] Hnodup Hfresh.
  { cbn. by rewrite app_nil_r, Z.add_0_r. }
  rewrite fmap_cons in Hnodup. apply NoDup_cons in Hnodup as [Hitem Hnodup].
  apply Forall_cons in Hfresh as [Hnew Hfresh]. cbn [rows sequence] in *.
  change (upsert_all key make (item :: items) ?t)
    with (upsert_all key make items (insert_or_replace key (make item) t)).
  assert (Hkept : filter (λ r, key r ≠ key (make item (seq + 1))) rs = rs).
  { apply filter_all, Forall_forall. intros r Hr Heq. apply Hnew.
    rewrite key_make in Heq. rewrite <-Heq. by apply list_elem_of_fmap_2. }
  rewrite IH; unfold insert_or_replace; cbn [rows sequence]; rewrite ?Hkept.
  - rewrite <-(assoc_L (++)). cbn [imap app]. f_equal.
    + f_equal. rewrite Z.add_0_r. f_equal. apply imap_ext. intros i x _. simpl.
      f_equal. lia.
    + rewrite length_cons. lia.
  - done.
  - apply Forall_forall. intros item' Hitem'. rewrite Forall_forall in Hfresh.
    rewrite fmap_app, elem_of_app. intros [Hold|Hsame]; [by apply (Hfresh item')|].
    apply list_elem_of_singleton in Hsame. rewrite key_make in Hsame.
    apply Hitem. rewrite <-Hsame. by apply list_elem_of_fmap_2.
Qed.

End Upsert.

(** *** The two tables *)

Section WithIsoformat.
Variable isoformat : datetime.t → str.

Lemma performance_row_key_make (perf : StockPerformance.t) (id : Z) :
  performance_row_key (performance_row isoformat perf id) = stored_key isoformat perf.
Proof. done. Qed.

Lemma mention_row_key_make (mention : StockMention.t) (id : Z) :
  mention_row_key (mention_row isoformat mention id) = stored_mention_key mention.
Proof. done. Qed.

(** X15. Last write wins: after [save_performances], the table holds
    exactly one row under the key of a saved record, and that row carries
    the values of the last record of the list with that key.  In particular
    saving a record twice leaves one row. *)
Theorem save_performances_last_write_wins (before after : list StockPerformance.t)
    (perf : StockPerformance.t) (db : Database.t) :
  Forall (λ p, stored_key isoformat p ≠ stored_key isoformat perf) after →
  ∃ id,
    filter (λ row, performance_row_key row = stored_key isoformat perf)
      (rows (stock_performance
               (save_performances isoformat (before ++ perf :: after) db))) =
    [performance_row isoformat perf id].
Proof.
  intros Hafter.
  apply (upsert_all_last performance_row_key (performance_row isoformat)
           (stored_key isoformat) performance_row_key_make before after perf
           (stock_performance db) Hafter).
Qed.

(** X16. [save_performances] keeps the keys of [stock_performance]
    unique, leaves the rows under keys other than those of the saved
    records as they are, and does not touch [stock_mentions]. *)
Theorem save_performances_invariant (performances : list StockPerformance.t)
    (db : Database.t) :
  NoDup (performance_row_key <$> rows (stock_performance db)) →
  let db' := save_performances isoformat performances db in
  NoDup (performance_row_key <$> rows (stock_performance db')) ∧
  (∀ key, key ∉ stored_key isoformat <$> performances →
     filter (λ row, performance_row_key row = key) (rows (stock_performance db')) =
     filter (λ row, performance_row_key row = key) (rows (stock_performance db))) ∧
  stock_mentions db' = stock_mentions db.
Proof.
  intros Hnodup db'. split; [|split; [|done]].
  - by apply (upsert_all_NoDup performance_row_key (performance_row isoformat)).
  - intros key Hkey.
    apply (upsert_all_other performance_row_key (performance_row isoformat)
             (stored_key isoformat) performance_row_key_make).
    apply Forall_forall. intros p Hp Heq. apply Hkey. rewrite <-Heq.
    by apply list_elem_of_fmap_2.
Qed.

(** X17. [save_mentions] keeps the keys (ticker, post id) of
    [stock_mentions] unique, stores under the key of each saved mention one
    row that carries the values of the last mention of the list with that
    key, and does not touch [stock_performance]. *)
Theorem save_mentions_invariant (before after : list StockMention.t)
    (mention : StockMention.t) (db : Database.t) :
  NoDup (mention_row_key <$> rows (stock_mentions db)) →
  Forall (λ m, stored_mention_key m ≠ stored_mention_key mention) after →
  let db' := save_mentions isoformat (before ++ mention :: after) db in
  NoDup (mention_row_key <$> rows (stock_mentions db')) ∧
  (∃ id,
     filter (λ row, mention_row_key row = stored_mention_key mention)
       (rows (stock_mentions db')) =
     [mention_row isoformat mention id]) ∧
  stock_performance db' = stock_performance db.
Proof.
  intros Hnodup Hafter db'. split; [|split; [|done]].
  - by apply (upsert_all_NoDup mention_row_key (mention_row isoformat)).
  - apply (upsert_all_last mention_row_key (mention_row isoformat)
             stored_mention_key mention_row_key_make before after mention
             (stock_mentions db) Hafter).
Qed.

End WithIsoformat.

Section Scenarios.
Import Scenario.

(** Two records of the same ticker and timestamp saved one after the
    other: one row, with the values of the second. *)
Lemma save_performances_last_write_wins_witness :
  Forall (λ p, stored_key stamp p ≠ stored_key stamp spec_record) [] ∧
  ∃ id,
    filter (λ row, performance_row_key row = stored_key stamp spec_record)
      (rows (stock_performance
               (save_performances stamp [gap_record; spec_record] Database.empty))) =
    [performance_row stamp spec_record id].
Proof.
  split; [apply Forall_nil_2|].
  exact (save_performances_last_write_wins stamp [gap_record] [] spec_record
           Database.empty (Forall_nil_2 _)).
Defined.

Lemma save_performances_invariant_witness :
  NoDup (performance_row_key <$> rows (stock_performance Database.empty)) ∧
  let db' := save_performances stamp [gap_record; spec_record] Database.empty in
  NoDup (performance_row_key <$> rows (stock_performance db')) ∧
  (∀ key, key ∉ stored_key stamp <$> [gap_record; spec_record] →
     filter (λ row, performance_row_key row = key) (rows (stock_performance db')) =
     filter (λ row, performance_row_key row = key)
       (rows (stock_performance Database.empty))) ∧
  stock_mentions db' = stock_mentions Database.empty.
Proof.
  assert (Hnodup : NoDup (performance_row_key <$> rows (stock_performance Database.empty))).
  { apply NoDup_nil_2. }
  split; [exact Hnodup|].
  exact (save_performances_invariant stamp [gap_record; spec_record] Database.empty Hnodup).
Defined.

(** The same mention saved twice, after a mention of another ticker. *)
Lemma save_mentions_invariant_witness :
  (NoDup (mention_row_key <$> rows (stock_mentions Database.empty)) ∧
   Forall (λ m, stored_mention_key m ≠ stored_mention_key morning) []) ∧
  let db' := save_mentions stamp [other; morning; morning] Database.empty in
  NoDup (mention_row_key <$> rows (stock_mentions db')) ∧
  (∃ id,
     filter (λ row, mention_row_key row = stored_mention_key morning)
       (rows (stock_mentions db')) =
     [mention_row stamp morning id]) ∧
  stock_performance db' = stock_performance Database.empty.
Proof.
  assert (Hnodup : NoDup (mention_row_key <$> rows (stock_mentions Database.empty))).
  { apply NoDup_nil_2. }
  split; [split; [exact Hnodup|apply Forall_nil_2]|].
  exact (save_mentions_invariant stamp [other; morning] [] morning Database.empty
           Hnodup (Forall_nil_2 _)).
Defined.

End Scenarios.

End DatabaseProofs.

(** ** The pipeline *)

Module PipelineProofs.
Import Database DatabaseSpec DatabaseProofs.
Import StockAnalyzer PerformanceSpec StockAnalyzerProofs StockAnalyzerBatches.
Import RedditStockAnalyzerApp.
Local Open Scope Z_scope.

Section Upsert.
Context {Row Key Item : Type} `{EqDecision Key}.
Variable key : Row → Key.
Variable make : Item → Z → Row.

Lemma upsert_all_sequence (items : list Item) (t : table Row) :
  sequence (upsert_all key make items t) = sequence t + Z.of_nat (length items).
Proof.
  revert t. induction items as [|item items IH]; intros t; [simpl; lia|].
  change (upsert_all key make (item :: items) t)
    with (upsert_all key make items (insert_or_replace key (make item) t)).
  rewrite IH. cbn [insert_or_replace sequence length]. lia.
Qed.

Lemma upsert_all_elem_of (items : list Item) (t : table Row) (r : Row) :
  r ∈ rows (upsert_all key make items t) →
  r ∈ rows t ∨ ∃ item id, item ∈ items ∧ r = make item id.
Proof.
  revert t. induction items as [|item items IH]; intros t; [by left|].
  change (upsert_all key make (item :: items) t)
    with (upsert_all key make items (insert_or_replace key (make item) t)).
  intros [Hr|(item' & id & Hitem' & ->)]%IH.
  - cbn [insert_or_replace rows] in Hr.
    apply elem_of_app in Hr as [[_ Hr]%list_elem_of_filter|Hr%list_elem_of_singleton].
    + by left.
    + right. exists item, (sequence t + 1). split; [by left|done].
  - right. exists item', id. split; [by right|done].
Qed.

Lemma upsert_all_rows_nonempty (items : list Item) (t : table Row) :
  items ≠ [] → rows (upsert_all key make items t) ≠ [].
Proof.
  destruct items as [|item items _] using rev_ind; [done|]. intros _.
  unfold upsert_all. rewrite foldl_app. cbn [foldl insert_or_replace rows].
  by intros [_ ?]%app_eq_nil.
Qed.

End Upsert.

Lemma NoDup_fmap_finer {A B C : Type} (f : A → B) (g : A → C) (l : list A) :
  (∀ x y, f x = f y → g x = g y) → NoDup (g <$> l) → NoDup (f <$> l).
Proof.
  intros Hfiner. induction l as [|x l IH]; [constructor|].
  rewrite !fmap_cons, !NoDup_cons. intros [Hx Hl]. split; [|by apply IH].
  intros (y & Hxy & Hy)%list_elem_of_fmap. apply Hx.
  rewrite (Hfiner _ _ Hxy). by apply list_elem_of_fmap_2.
Qed.

Section WithCollaborators.
Variable unicode_upper : N → str.
Variable unicode_isalnum : N → bool.
Variable yf_info : str → result (option (gmap str info_value)).
Variable yf_history_period : str → str → result DataFrame.
Variable subreddit_hot subreddit_new subreddit_rising : Z → result (list Post.t).
Variable subreddit_top : Z → str → result (list Post.t).
Variable utc_offset : Z → Z.
Variable yf_history : str → Z → Z → result DataFrame.
Variable isoformat : datetime.t → str.
Variable DEFAULT_POST_LIMIT : Z.

Local Abbreviation fetch :=
  (RedditScraper.fetch_posts unicode_upper unicode_isalnum yf_info yf_history_period
     subreddit_hot subreddit_new subreddit_rising subreddit_top utc_offset).
Local Abbreviation run :=
  (run_analysis unicode_upper unicode_isalnum yf_info yf_history_period
     subreddit_hot subreddit_new subreddit_rising subreddit_top utc_offset
     yf_history isoformat DEFAULT_POST_LIMIT).

(** X18. If [isoformat] maps distinct timestamps to distinct strings, the
    records of one batch never replace each other in the table: saved into
    an empty database, the output of [calculate_performance] gives one row
    per record, in the order of the output, under the ids 1, 2, ... *)
Theorem saved_batch_rows (mentions : list StockMention.t) :
  Inj (=) (=) isoformat →
  stock_performance
    (save_performances isoformat (calculate_performance yf_history mentions)
       Database.empty) =
  mk_table
    (imap (λ i perf, performance_row isoformat perf (1 + Z.of_nat i))
       (calculate_performance yf_history mentions))
    (Z.of_nat (length (calculate_performance yf_history mentions))).
Proof.
  intros Hinj.
  pose proof (upsert_all_fresh performance_row_key (performance_row isoformat)
                (stored_key isoformat) (performance_row_key_make isoformat)
                (calculate_performance yf_history mentions) (mk_table [] 0)) as Hfresh.
  cbn [rows sequence app] in Hfresh. apply Hfresh.
  - apply (NoDup_fmap_finer _ performance_key).
    + intros p p' [= Hticker Hdate%Hinj]. unfold performance_key. by rewrite Hticker, Hdate.
    + rewrite calculate_performance_first_occurrences.
      eapply sublist_NoDup; [apply first_occurrences_NoDup|apply omap_process_keys].
  - apply Forall_forall. intros perf _. apply not_elem_of_nil.
Qed.

(** X19. [run_analysis] raises only where [fetch_posts] does.  When it
    returns without a report it has left the database as it was; when it
    returns a report it has saved the mentions and the records of the run,
    the database has changed, and the report is the analysis of the rows
    with a return that the database then holds. *)
Theorem run_analysis_outcome (db : Database.t) (num_posts : option Z) (title_only : bool)
    (sort_by time_filter : str) :
  match run db num_posts title_only sort_by time_filter with
  | (calls, Raise e) =>
      fetch (default DEFAULT_POST_LIMIT num_posts) title_only sort_by time_filter =
        (calls, Raise e)
  | (calls, Ok (db', None)) => db' = db
  | (calls, Ok (db', Some report)) =>
      db' ≠ db ∧
      report = Visualizer.analyze_profitability (get_all_performance_data db') ∧
      ∃ mentions,
        fetch (default DEFAULT_POST_LIMIT num_posts) title_only sort_by time_filter =
          (calls, Ok mentions) ∧
        db' = save_performances isoformat (calculate_performance yf_history mentions)
                (save_mentions isoformat mentions db)
  end.
Proof.
  unfold run_analysis.
  destruct (fetch _ title_only sort_by time_filter) as [calls [mentions|e]] eqn:Hfetch;
    cbn [mbind io_bind]; [|done].
  destruct mentions as [|mention mentions]; [cbn; done|].
  destruct (calculate_performance yf_history (mention :: mentions))
    as [|perf perfs] eqn:Hperfs; [cbn; done|].
  cbn [mret io_ret]. rewrite app_nil_r. split; [|split; [done|]].
  - intros Hsame%(f_equal (sequence ∘ stock_performance)). revert Hsame.
    unfold save_performances, save_mentions. cbn [compose stock_performance].
    change (foldl ?f ?t ?l) with (upsert_all performance_row_key (performance_row isoformat) l t).
    rewrite upsert_all_sequence. cbn [length]. lia.
  - exists (mention :: mentions). by rewrite Hperfs.
Qed.

(** X20. A batch none of whose records has a resolved horizon is saved
    all the same, and the report on a database that was empty before is
    the error [No performance data available]. *)
Theorem unresolved_batch_report (num_posts : option Z) (title_only : bool)
    (sort_by time_filter : str) (calls : list call) (mentions : list StockMention.t) :
  fetch (default DEFAULT_POST_LIMIT num_posts) title_only sort_by time_filter =
    (calls, Ok mentions) →
  calculate_performance yf_history mentions ≠ [] →
  Forall (λ perf,
            StockPerformance.return_1d perf = None ∧
            StockPerformance.return_3d perf = None ∧
            StockPerformance.return_1w perf = None ∧
            StockPerformance.return_2w perf = None ∧
            StockPerformance.return_1m perf = None)
    (calculate_performance yf_history mentions) →
  ∃ db',
    run Database.empty num_posts title_only sort_by time_filter =
      (calls, Ok (db', Some (Visualizer.Error (py "No performance data available")))) ∧
    rows (stock_performance db') ≠ [] ∧
    get_all_performance_data db' = [].
Proof.
  intros Hfetch Hperfs Hunresolved.
  set (db' := save_performances isoformat (calculate_performance yf_history mentions)
                (save_mentions isoformat mentions Database.empty)).
  assert (Hnone : get_all_performance_data db' = []).
  { apply filter_none, Forall_forall. intros row Hrow.
    apply (upsert_all_elem_of performance_row_key (performance_row isoformat)) in Hrow
      as [[]%elem_of_nil|(perf & id & Hperf & ->)].
    rewrite Forall_forall in Hunresolved.
    destruct (Hunresolved perf Hperf) as (H1 & H2 & H3 & H4 & H5).
    cbn. rewrite H1, H2, H3, H4, H5. cbn.
    intros [[? [=]]|[[? [=]]|[[? [=]]|[[? [=]]|[? [=]]]]]]. }
  exists db'. split; [|split; [|done]].
  - unfold run_analysis. rewrite Hfetch. cbn [mbind io_bind].
    destruct mentions as [|mention mentions]; [done|].
    destruct (calculate_performance yf_history (mention :: mentions))
      as [|perf perfs] eqn:Hcalc; [done|].
    cbn [mret io_ret]. rewrite app_nil_r. fold db'. by rewrite Hnone.
  - by apply (upsert_all_rows_nonempty performance_row_key (performance_row isoformat)).
Qed.

End WithCollaborators.

Section Scenarios.
Import Scenario.

Lemma stamp_inj : Inj (=) (=) stamp.
Proof.
  intros [d us] [d' us']. unfold stamp. cbn [datetime.toordinal datetime.microseconds].
  intros [= Hsign Habs Hsign' Habs']. f_equal.
  - repeat case_bool_decide; try done; lia.
  - repeat case_bool_decide; try done; lia.
Qed.

Lemma saved_batch_rows_witness :
  Inj (=) (=) stamp ∧
  stock_performance
    (save_performances stamp (calculate_performance gap_provider [morning; evening])
       Database.empty) =
  mk_table
    (imap (λ i perf, performance_row stamp perf (1 + Z.of_nat i))
       (calculate_performance gap_provider [morning; evening]))
    (Z.of_nat (length (calculate_performance gap_provider [morning; evening]))).
Proof.
  split; [exact stamp_inj|].
  exact (saved_batch_rows gap_provider stamp [morning; evening] stamp_inj).
Defined.

Local Abbreviation hot_fetch_title :=
  (RedditScraper.fetch_posts plain_upper plain_isalnum named_info one_row_history
     hot_posts no_posts no_posts no_top_posts utc 100 true (py "hot") (py "month")).

(** A post of 2024-01-02 on a ticker whose history ends that day: the
    record has no resolved horizon, it is saved, and the report is the
    error. *)
Lemma unresolved_batch_report_witness :
  (hot_fetch_title = (hot_fetch_title.1, Ok [post_one_mention "XYZ"]) ∧
   calculate_performance short_provider [post_one_mention "XYZ"] ≠ [] ∧
   Forall (λ perf,
             StockPerformance.return_1d perf = None ∧
             StockPerformance.return_3d perf = None ∧
             StockPerformance.return_1w perf = None ∧
             StockPerformance.return_2w perf = None ∧
             StockPerformance.return_1m perf = None)
     (calculate_performance short_provider [post_one_mention "XYZ"])) ∧
  ∃ db',
    run_analysis plain_upper plain_isalnum named_info one_row_history
      hot_posts no_posts no_posts no_top_posts utc short_provider stamp 100
      Database.empty None true (py "hot") (py "month") =
      (hot_fetch_title.1,
       Ok (db', Some (Visualizer.Error (py "No performance data available")))) ∧
    rows (stock_performance db') ≠ [] ∧
    get_all_performance_data db' = [].
Proof.
  assert (Hfetch : hot_fetch_title = (hot_fetch_title.1, Ok [post_one_mention "XYZ"])).
  { vm_compute. reflexivity. }
  assert (Hperfs : calculate_performance short_provider [post_one_mention "XYZ"] ≠ []).
  { vm_compute. discriminate. }
  assert (Hunresolved :
    Forall (λ perf,
              StockPerformance.return_1d perf = None ∧
              StockPerformance.return_3d perf = None ∧
              StockPerformance.return_1w perf = None ∧
              StockPerformance.return_2w perf = None ∧
              StockPerformance.return_1m perf = None)
      (calculate_performance short_provider [post_one_mention "XYZ"])).
  { vm_compute. repeat constructor. }
  split; [split; [exact Hfetch|split; [exact Hperfs|exact Hunresolved]]|].
  exact (unresolved_batch_report plain_upper plain_isalnum named_info one_row_history
           hot_posts no_posts no_posts no_top_posts utc short_provider stamp 100
           None true (py "hot") (py "month") hot_fetch_title.1 [post_one_mention "XYZ"]
           Hfetch Hperfs Hunresolved).
Defined.

End Scenarios.

End PipelineProofs.

(** ** The report: periods and counts *)

Module VisualizerReport.
Import Visualizer ReportSpec VisualizerProofs.

Lemma count_if_le (test test' : float → bool) (values : list float) :
  (∀ x, test x = true → test' x = true) →
  count_if test values ≤ count_if test' values.
Proof.
  intros Himpl. unfold count_if. induction values as [|x values IH]; [done|].
  destruct (test x) eqn:Hx.
  - rewrite !filter_cons_True by auto. simpl. lia.
  - rewrite (filter_cons_False (λ x, test x = true)) by (by rewrite Hx).
    destruct (decide (test' x = true)).
    + rewrite filter_cons_True by done. simpl. lia.
    + by rewrite filter_cons_False.
Qed.

Lemma count_if_disjoint (test test' : float → bool) (values : list float) :
  (∀ x, test x = true → test' x = false) →
  count_if test values + count_if test' values ≤ length values.
Proof.
  intros Hdisjoint. unfold count_if. induction values as [|x values IH]; [done|].
  destruct (test x) eqn:Hx.
  - rewrite filter_cons_True by done.
    rewrite filter_cons_False by (by rewrite (Hdisjoint x Hx)). simpl. lia.
  - rewrite (filter_cons_False (λ x, test x = true)) by (by rewrite Hx).
    destruct (decide (test' x = true)).
    + rewrite filter_cons_True by done. simpl. lia.
    + rewrite filter_cons_False by done. simpl. lia.
Qed.

Lemma length_dropna (column : list (option float)) :
  length (dropna column) ≤ length column.
Proof.
  unfold dropna. induction column as [|value column IH]; [done|].
  match goal with
  | |- context [omap ?f (value :: column)] =>
      change (omap f (value :: column))
        with (match f value with Some y => y :: omap f column | None => omap f column end)
  end.
  destruct value as [x|]; [destruct (is_nan x)|]; cbn [length]; lia.
Qed.

Lemma ltb_irrefl (x : float) : (x <? x)%float = false.
Proof.
  destruct (x <? x)%float eqn:Hxx; [|done]. by rewrite (FloatFacts.ltb_asym _ _ Hxx) in Hxx.
Qed.

Lemma foldl_greater_elem_of (values : list float) (acc : float) :
  foldl greater acc values = acc ∨ foldl greater acc values ∈ values.
Proof.
  revert acc. induction values as [|y values IH]; intros acc; [by left|]. simpl.
  destruct (IH (greater acc y)) as [->|Hin]; [|right; by right].
  unfold greater. destruct (acc <? y)%float; [right; by left|by left].
Qed.

Lemma foldl_smaller_elem_of (values : list float) (acc : float) :
  foldl smaller acc values = acc ∨ foldl smaller acc values ∈ values.
Proof.
  revert acc. induction values as [|y values IH]; intros acc; [by left|]. simpl.
  destruct (IH (smaller acc y)) as [->|Hin]; [|right; by right].
  unfold smaller. destruct (y <? acc)%float; [right; by left|by left].
Qed.

Lemma foldl_greater_bound (values : list float) (acc x : float) :
  (acc <? x)%float = false ∨ x ∈ values →
  (foldl greater acc values <? x)%float = false.
Proof.
  revert acc. induction values as [|y values IH]; intros acc [Hacc|Hin]; simpl.
  - done.
  - by apply elem_of_nil in Hin.
  - apply IH. left. unfold greater. destruct (acc <? y)%float eqn:Hy; [|done].
    destruct (y <? x)%float eqn:Hx; [|done].
    by rewrite (FloatFacts.ltb_trans _ _ _ Hy Hx) in Hacc.
  - apply elem_of_cons in Hin as [->|Hin]; [|apply IH; by right].
    apply IH. left. unfold greater. destruct (acc <? y)%float eqn:Hy; [|done].
    apply ltb_irrefl.
Qed.

Lemma foldl_smaller_bound (values : list float) (acc x : float) :
  (x <? acc)%float = false ∨ x ∈ values →
  (x <? foldl smaller acc values)%float = false.
Proof.
  revert acc. induction values as [|y values IH]; intros acc [Hacc|Hin]; simpl.
  - done.
  - by apply elem_of_nil in Hin.
  - apply IH. left. unfold smaller. destruct (y <? acc)%float eqn:Hy; [|done].
    destruct (x <? y)%float eqn:Hx; [|done].
    by rewrite (FloatFacts.ltb_trans _ _ _ Hx Hy) in Hacc.
  - apply elem_of_cons in Hin as [->|Hin]; [|apply IH; by right].
    apply IH. left. unfold smaller. destruct (y <? acc)%float eqn:Hy; [|done].
    apply ltb_irrefl.
Qed.

Lemma maximum_elem_of (values : list float) :
  values ≠ [] → maximum values ∈ values.
Proof.
  destruct values as [|x values]; [done|]. intros _.
  change (maximum (x :: values)) with (foldl greater x values).
  destruct (foldl_greater_elem_of values x) as [->|Hin]; [by left|by right].
Qed.

Lemma minimum_elem_of (values : list float) :
  values ≠ [] → minimum values ∈ values.
Proof.
  destruct values as [|x values]; [done|]. intros _.
  change (minimum (x :: values)) with (foldl smaller x values).
  destruct (foldl_smaller_elem_of values x) as [->|Hin]; [by left|by right].
Qed.

Lemma maximum_bound (values : list float) (x : float) :
  x ∈ values → (maximum values <? x)%float = false.
Proof.
  destruct values as [|y values]; [by intros ?%elem_of_nil|].
  change (maximum (y :: values)) with (foldl greater y values).
  intros [->|Hin]%elem_of_cons; apply foldl_greater_bound; [left; apply ltb_irrefl|by right].
Qed.

Lemma minimum_bound (values : list float) (x : float) :
  x ∈ values → (x <? minimum values)%float = false.
Proof.
  destruct values as [|y values]; [by intros ?%elem_of_nil|].
  change (minimum (y :: values)) with (foldl smaller y values).
  intros [->|Hin]%elem_of_cons; apply foldl_smaller_bound; [left; apply ltb_irrefl|by right].
Qed.

(** The statistics a report holds for a period are those of the non-null
    returns of the period's column, of which there is at least one. *)
Lemma report_lookup_Some (data : list PerformanceRow.t) (n : nat)
    (time_periods : gmap str period_stats) (period : str) (stats : period_stats) :
  analyze_profitability data = Results n time_periods →
  time_periods !! period = Some stats →
  ∃ return_col,
    (period, return_col) ∈ periods ∧
    dropna (return_col <$> data) ≠ [] ∧
    stats = stats_of (dropna (return_col <$> data)).
Proof.
  intros Hreport Hlookup.
  assert (time_periods = periods_loop data periods ∅) as ->.
  { unfold analyze_profitability in Hreport. destruct data; [done|congruence]. }
  destruct (decide (period ∈ periods.*1)) as [Hin|Hnot].
  - apply list_elem_of_fmap in Hin as ([period' return_col] & -> & Hin).
    exists return_col. cbn [fst] in Hlookup |- *. split; [done|].
    rewrite (periods_loop_lookup _ _ _ _ _ periods_NoDup Hin), lookup_empty in Hlookup.
    destruct (dropna (return_col <$> data)); [done|]. split; [done|congruence].
  - by rewrite periods_loop_other, lookup_empty in Hlookup.
Qed.


(** X22. The counts of a period's statistics fit together: there are no
    more returns over 25% than over 10%, no more over 10% than positive
    ones, no more under -10% than negative ones, positive and negative
    returns together are no more than the returns counted, of which there
    is at least one and no more than rows. *)
Theorem report_counts_consistent (data : list PerformanceRow.t) (n : nat)
    (time_periods : gmap str period_stats) (period : str) (stats : period_stats) :
  analyze_profitability data = Results n time_periods →
  time_periods !! period = Some stats →
  returns_over_25pct stats ≤ returns_over_10pct stats ∧
  returns_over_10pct stats ≤ positive_returns stats ∧
  returns_under_minus10pct stats ≤ negative_returns stats ∧
  positive_returns stats + negative_returns stats ≤ count stats ∧
  0 < count stats ∧
  count stats ≤ n.
Proof.
  intros Hreport Hstats.
  destruct (report_lookup_Some _ _ _ _ _ Hreport Hstats) as (return_col & _ & Hvalid & ->).
  cbn [stats_of returns_over_25pct returns_over_10pct positive_returns negative_returns
       returns_under_minus10pct count].
  repeat split.
  - apply count_if_le. intros x. by apply FloatFacts.ltb_trans.
  - apply count_if_le. intros x. by apply FloatFacts.ltb_trans.
  - apply count_if_le. intros x Hx. by apply (FloatFacts.ltb_trans x (-10) 0).
  - apply count_if_disjoint. intros x. apply FloatFacts.ltb_asym.
  - destruct (dropna (return_col <$> data)); [done|simpl; lia].
  - unfold analyze_profitability in Hreport. destruct data as [|row data]; [done|].
    injection Hreport as <- _. etrans; [apply length_dropna|]. by rewrite length_fmap.
Qed.

(** X23. The best and the worst return of a period are returns of the
    period's column: no return of the column is greater than the best, and
    none is less than the worst. *)
Theorem report_extrema (data : list PerformanceRow.t) (n : nat)
    (time_periods : gmap str period_stats) (period : str) (stats : period_stats) :
  analyze_profitability data = Results n time_periods →
  time_periods !! period = Some stats →
  ∃ return_col,
    (period, return_col) ∈ periods ∧
    Some (best_return stats) ∈ return_col <$> data ∧
    Some (worst_return stats) ∈ return_col <$> data ∧
    ∀ x, Some x ∈ return_col <$> data →
      (best_return stats <? x)%float = false ∧
      (x <? worst_return stats)%float = false.
Proof.
  intros Hreport Hstats.
  destruct (report_lookup_Some _ _ _ _ _ Hreport Hstats) as (return_col & Hin & Hvalid & ->).
  exists return_col. split; [done|].
  cbn [stats_of best_return worst_return].
  assert (Hdropna : ∀ x, x ∈ dropna (return_col <$> data) →
                         Some x ∈ return_col <$> data).
  { intros x (value & Hvalue & Hx)%list_elem_of_omap.
    destruct value as [y|]; [|done]. destruct (is_nan y); [done|]. congruence. }
  split; [apply Hdropna, maximum_elem_of, Hvalid|].
  split; [apply Hdropna, minimum_elem_of, Hvalid|].
  intros x Hx.
  destruct (is_nan x) eqn:Hnan.
  - unfold is_nan in Hnan. apply negb_true_iff in Hnan.
    split.
    + destruct (_ <? x)%float eqn:Hlt; [|done].
      pose proof (FloatFacts.ltb_not_nan_r _ _ Hlt). congruence.
    + destruct (x <? _)%float eqn:Hlt; [|done].
      pose proof (FloatFacts.ltb_not_nan_l _ _ Hlt). congruence.
  - assert (x ∈ dropna (return_col <$> data)) as Hvalid_x.
    { apply list_elem_of_omap. exists (Some x). split; [done|]. by rewrite Hnan. }
    split; [by apply maximum_bound|by apply minimum_bound].
Qed.

Section Scenarios.
Import Scenario.


Local Abbreviation five_stats := (stats_of [5; -5; 15; -15; 25]%float).

Lemma report_counts_consistent_witness :
  (analyze_profitability five_rows = Results 5 (periods_loop five_rows periods ∅) ∧
   periods_loop five_rows periods ∅ !! py "1d" = Some five_stats) ∧
  returns_over_25pct five_stats ≤ returns_over_10pct five_stats ∧
  returns_over_10pct five_stats ≤ positive_returns five_stats ∧
  returns_under_minus10pct five_stats ≤ negative_returns five_stats ∧
  positive_returns five_stats + negative_returns five_stats ≤ count five_stats ∧
  0 < count five_stats ∧
  count five_stats ≤ 5.
Proof.
  assert (Hreport : analyze_profitability five_rows =
                    Results 5 (periods_loop five_rows periods ∅)) by reflexivity.
  assert (Hstats : periods_loop five_rows periods ∅ !! py "1d" = Some five_stats).
  { vm_compute. reflexivity. }
  split; [split; [exact Hreport|exact Hstats]|].
  exact (report_counts_consistent five_rows 5 _ (py "1d") five_stats Hreport Hstats).
Defined.

Lemma report_extrema_witness :
  (analyze_profitability five_rows = Results 5 (periods_loop five_rows periods ∅) ∧
   periods_loop five_rows periods ∅ !! py "1d" = Some five_stats) ∧
  ∃ return_col,
    (py "1d", return_col) ∈ periods ∧
    Some (best_return five_stats) ∈ return_col <$> five_rows ∧
    Some (worst_return five_stats) ∈ return_col <$> five_rows ∧
    ∀ x, Some x ∈ return_col <$> five_rows →
      (best_return five_stats <? x)%float = false ∧
      (x <? worst_return five_stats)%float = false.
Proof.
  assert (Hreport : analyze_profitability five_rows =
                    Results 5 (periods_loop five_rows periods ∅)) by reflexivity.
  assert (Hstats : periods_loop five_rows periods ∅ !! py "1d" = Some five_stats).
  { vm_compute. reflexivity. }
  split; [split; [exact Hreport|exact Hstats]|].
  exact (report_extrema five_rows 5 _ (py "1d") five_stats Hreport Hstats).
Defined.

End Scenarios.

End VisualizerReport.
